(** * NestEventsManager: the events controller and its input validation

    A shallow embedding of [src/create-event.dto.ts] (the [CreateEventDto]
    class and the final [EventsController]) together with the parts of the
    libraries the controller runs on: class-validator's metadata selection
    and executor, Nest's [ValidationPipe], and TypeORM's generic
    [Repository] over a table with an auto-increment key.

    Conventions.
    - A request body is the parsed JSON object.  A property that may be
      missing is an [option]: [None] is [undefined].  A present property
      holds a JSON scalar: [null], a boolean, an integer or a string; a
      string is its UTF-16 code units.  The pipes have no [whitelist], so
      a body's [id] reaches the handlers with the four properties the DTO
      declares.  Properties that are not columns of the entity are carried
      into the answer and are not written; they are left out.
    - A [Date] is its time value: [Some ms], or [None] for an Invalid Date.
    - What belongs to the runtime or to the storage engine is a section
      variable: the parser behind [new Date(s)], validator.js's
      [isISO8601] and whether its count of a string's characters leaves
      out the variation selectors, the row the engine writes for an
      object (or its refusal), what it makes of an [id] that is neither
      null nor a non-zero integer, and the order in which an unordered
      [find] yields the rows.
    - A route parameter [id] is the integer it denotes.
    - Handlers are functions from the store to a result and a store.

    The controller validates behind [new ValidationPipe({ groups: [g] })].
    With groups given, class-validator applies the decorators tagged with
    one of them or marked [always: true], and no others; the decorators of
    [CreateEventDto] without a [groups] option, and the [IsOptional] that
    [PartialType] adds, are therefore not applied by either pipe.  Several
    results below turn on this. *)

From Stdlib Require Import String Ascii List ZArith NArith Lia Bool.
From Stdlib Require Import DecimalString Sorted Permutation.
Import ListNotations.

Local Open Scope string_scope.
Local Open Scope Z_scope.

(** ** JavaScript values *)

Module Js.

(** A string: its UTF-16 code units. *)
Definition Str := list N.

(** The string a literal of Latin-1 characters denotes. *)
Definition ofString (s : string) : Str :=
  map (fun c => N.of_nat (nat_of_ascii c)) (list_ascii_of_string s).

(** [s.length]: the number of code units. *)
Definition length (s : Str) : nat := List.length s.

(** A JSON scalar. *)
Inductive Value :=
| VNull
| VBool (b : bool)
| VNumber (n : Z)
| VString (s : Str).

(** The time value of a [Date]; [None] is NaN, an Invalid Date. *)
Definition Date := option Z.

(** Truthiness, as in [input.when ? .. : ..]: [undefined], [null],
    [false], [0] and the empty string are falsy. *)
Definition truthy (v : option Value) : bool :=
  match v with
  | None => false
  | Some VNull => false
  | Some (VBool b) => b
  | Some (VNumber n) => negb (Z.eqb n 0)
  | Some (VString s) =>
      match s with
      | [] => false
      | _ :: _ => true
      end
  end.

(** [{...a, ...b}] on one property: the later object wins where it has
    the property, whatever it holds. *)
Definition spread {A : Type} (a b : option A) : option A :=
  match b with
  | Some v => Some v
  | None => a
  end.

(** An object seen through its properties. *)
Definition Object := string -> option Value.

(** What a handler can throw. *)
Inductive Exception :=
| BadRequestException (message : list string)
| TypeError (message : string)
| MustBeEntityError
| SubjectWithoutIdentifierError
| QueryFailedError.

Inductive Result (A : Type) :=
| Return (a : A)
| Throw (e : Exception).
Arguments Return {A} a.
Arguments Throw {A} e.

(** Nest's exception layer: an [HttpException] carries its status, any
    other exception is answered with 500. *)
Definition statusOfException (e : Exception) : Z :=
  match e with
  | BadRequestException _ => 400
  | TypeError _ => 500
  | MustBeEntityError => 500
  | SubjectWithoutIdentifierError => 500
  | QueryFailedError => 500
  end.

(** The status of a response, given the route's success code. *)
Definition statusCode {A : Type} (success : Z) (r : Result A) : Z :=
  match r with
  | Return _ => success
  | Throw e => statusOfException e
  end.

End Js.

(** ** The entity *)

Module Entity.

(** Modelled from the spec: the [Event] entity class ([./event.entity] is
    imported by the controller but is not among the sources).  The spec's
    data model gives it an integer identifier that the store generates,
    and [name], [description], [when] (a date value) and [address].  The
    record is used for a row of the table and for an object handed to
    [save]; such an object holds what the request body held. *)
Record Event := mkEvent {
  id : option Js.Value;
  name : option Js.Value;
  description : option Js.Value;
  when : Js.Date;
  address : option Js.Value
}.

(** The row or object has the integer [i] for its [id]. *)
Definition hasId (i : Z) (e : Event) : bool :=
  match id e with
  | Some (Js.VNumber j) => Z.eqb j i
  | _ => false
  end.

Definition withId (i : Z) (e : Event) : Event :=
  {| id := Some (Js.VNumber i); name := name e;
     description := description e; when := when e;
     address := address e |}.

End Entity.

(** ** The repository *)

Module Repository.
Import Entity.

(** The table behind [Repository<Event>]: its rows and the next value of
    the auto-increment key. *)
Record Store := mkStore {
  rows : list Event;
  autoIncrement : Z
}.

Definition Async (A : Type) := Store -> Js.Result A * Store.

Definition ret {A : Type} (a : A) : Async A :=
  fun st => (Js.Return a, st).

Definition throw {A : Type} (e : Js.Exception) : Async A :=
  fun st => (Js.Throw e, st).

(** [await]: a rejected promise leaves the handler with the store as it
    is at that point. *)
Definition bind {A B : Type} (m : Async A) (k : A -> Async B) : Async B :=
  fun st =>
    match m st with
    | (Js.Return a, st') => k a st'
    | (Js.Throw e, st') => (Js.Throw e, st')
    end.

(** [repository.findOneBy({ id })]: the row with that key, or [null]. *)
Definition findOneBy (i : Z) : Async (option Event) :=
  fun st => (Js.Return (List.find (hasId i) (rows st)), st).

(** [repository.remove(entity)]: rejects with [MustBeEntityError] when
    the argument is not an object and with
    [SubjectWithoutIdentifierError] when the entity has no key; otherwise
    deletes the rows with the entity's key. *)
Definition remove (e : option Event) : Async unit :=
  fun st =>
    match e with
    | None => (Js.Throw Js.MustBeEntityError, st)
    | Some ev =>
        match id ev with
        | Some (Js.VNumber i) =>
            (Js.Return tt,
             {| rows := filter (fun r => negb (hasId i r)) (rows st);
                autoIncrement := autoIncrement st |})
        | _ => (Js.Throw Js.SubjectWithoutIdentifierError, st)
        end
    end.

(** What [save] makes of an object's [id]: none (insert under a generated
    key), a key, or a value the engine refuses. *)
Inductive KeyReading :=
| NoKey
| Key (k : Z)
| BadKey.

(** An update writes the properties the object has and leaves the other
    columns of the row as they are; [when] is set by both handlers. *)
Definition overlay (k : Z) (old e : Event) : Event :=
  {| id := Some (Js.VNumber k);
     name := Js.spread (name old) (name e);
     description := Js.spread (description old) (description e);
     when := when e;
     address := Js.spread (address old) (address e) |}.

Section Engine.

(** The row the engine writes for an object, or [None] when it refuses
    the object: the column types and constraints of the entity
    declaration, which is not among the sources. *)
Variable convert : Event -> option Event.

(** What [save] makes of an [id] that is neither [null] nor a non-zero
    integer. *)
Variable otherKey : Js.Value -> KeyReading.

(** The order in which a [find] without [order] yields the rows. *)
Variable scan : list Event -> list Event.

Definition keyOf (v : option Js.Value) : KeyReading :=
  match v with
  | None => NoKey
  | Some Js.VNull => NoKey
  | Some (Js.VNumber k) =>
      if Z.eqb k 0 then otherKey (Js.VNumber k) else Key k
  | Some other => otherKey other
  end.

(** [repository.find()] *)
Definition find : Async (list Event) :=
  fun st => (Js.Return (scan (rows st)), st).

(** [repository.save(entity)].  An entity without a key is inserted under
    a generated key, which the returned entity carries.  An entity whose
    key is in the table updates that row; one whose key is not in the
    table is inserted under it.  A refusal of the engine is a
    [QueryFailedError] and writes nothing. *)
Definition save (e : Event) : Async Event :=
  fun st =>
    match keyOf (id e) with
    | BadKey => (Js.Throw Js.QueryFailedError, st)
    | NoKey =>
        match convert e with
        | None => (Js.Throw Js.QueryFailedError, st)
        | Some r =>
            (Js.Return (withId (autoIncrement st) e),
             {| rows := rows st ++ [withId (autoIncrement st) r];
                autoIncrement := autoIncrement st + 1 |})
        end
    | Key k =>
        match List.find (hasId k) (rows st) with
        | Some old =>
            match convert (overlay k old e) with
            | None => (Js.Throw Js.QueryFailedError, st)
            | Some r =>
                (Js.Return e,
                 {| rows := map (fun x => if hasId k x then withId k r
                                          else x) (rows st);
                    autoIncrement := autoIncrement st |})
            end
        | None =>
            match convert e with
            | None => (Js.Throw Js.QueryFailedError, st)
            | Some r =>
                (Js.Return e,
                 {| rows := rows st ++ [withId k r];
                    autoIncrement := Z.max (autoIncrement st) (k + 1) |})
            end
        end
    end.

End Engine.

(** TypeORM's [MoreThan(bound)] on a column: SQL's [column > bound], which
    no [NULL] satisfies. *)
Definition MoreThan (bound : Z) (v : option Z) : bool :=
  match v with
  | Some x => Z.ltb bound x
  | None => false
  end.

(** The key of a row as a number. *)
Definition keyNumber (e : Event) : option Z :=
  match id e with
  | Some (Js.VNumber k) => Some k
  | _ => None
  end.

(** [order: { id: 'DESC' }]: larger keys first, rows without a key last. *)
Definition idGe (a b : Event) : bool :=
  match keyNumber a, keyNumber b with
  | Some x, Some y => Z.leb y x
  | Some _, None => true
  | None, Some _ => false
  | None, None => true
  end.

Fixpoint insertById (r : Event) (rs : list Event) : list Event :=
  match rs with
  | [] => [r]
  | x :: xs => if idGe r x then r :: x :: xs else x :: insertById r xs
  end.

Definition orderByIdDesc (rs : list Event) : list Event :=
  fold_right insertById [] rs.

(** [repository.find({ select, where, take, order: { id: 'DESC' } })]: the
    rows that satisfy [where], by descending key, the first [take] of
    them, each cut down to the selected columns. *)
Definition findOrderedByIdDesc {A : Type} (select : Event -> A)
    (where_ : Event -> bool) (take : nat) : Async (list A) :=
  fun st =>
    (Js.Return
       (map select (firstn take (orderByIdDesc (filter where_ (rows st))))),
     st).

(** Every row carries an integer key, and every key is below the
    counter. *)
Definition wellFormed (st : Store) : Prop :=
  Forall (fun r => exists i, id r = Some (Js.VNumber i)
                             /\ i < autoIncrement st)
         (rows st).

End Repository.

Declare Scope async_scope.
Delimit Scope async_scope with async.
Notation "x <- m ;; k" := (Repository.bind m (fun x => k))
  (at level 61, m at next level, right associativity) : async_scope.

(** ** class-validator *)

Module ClassValidator.

(** The decorators the DTO uses.  [Length] carries its two constraints;
    [IsOptional] is a conditional validation. *)
Inductive ValidationType :=
| Length (min max : nat)
| IsString
| IsDateString
| IsOptional.

(** One registered decorator: [ValidationMetadata].  [groups] is empty and
    [always] is [None] when the decorator's options do not set them. *)
Record ValidationMetadata := mkMetadata {
  propertyName : string;
  type : ValidationType;
  message : option string;
  groups : list string;
  always : option bool
}.

(** The [ValidatorOptions] the executor reads; an option left out of the
    object is its default ([groups] empty, the flags false). *)
Record ValidatorOptions := mkOptions {
  opt_groups : list string;
  opt_always : bool;
  opt_strictGroups : bool
}.

Definition isConditional (m : ValidationMetadata) : bool :=
  match type m with
  | IsOptional => true
  | _ => false
  end.

(** [MetadataStorage.getTargetValidationMetadatas], the filter applied to
    the metadata of the target class:
<<
    if (includeMetadataBecauseOfAlwaysOption(metadata)) return true;
    if (excludeMetadataBecauseOfStrictGroupsOption(metadata)) return false;
    if (groups && groups.length > 0)
      return metadata.groups &&
        !!metadata.groups.find(group => groups.indexOf(group) !== -1);
    return true;
>>
    A decorator's own [always] overrides the global one; a decorator with
    groups is never included by the global [always]. *)
Definition includeMetadataBecauseOfAlwaysOption
    (o : ValidatorOptions) (m : ValidationMetadata) : bool :=
  match always m with
  | Some b => b
  | None =>
      match groups m with
      | [] => opt_always o
      | _ :: _ => false
      end
  end.

Definition excludeMetadataBecauseOfStrictGroupsOption
    (o : ValidatorOptions) (m : ValidationMetadata) : bool :=
  if opt_strictGroups o then
    match opt_groups o, groups m with
    | [], _ :: _ => true
    | _, _ => false
    end
  else false.

Definition inGroups (gs : list string) (g : string) : bool :=
  existsb (String.eqb g) gs.

Definition selected (o : ValidatorOptions) (m : ValidationMetadata) : bool :=
  if includeMetadataBecauseOfAlwaysOption o m then true
  else if excludeMetadataBecauseOfStrictGroupsOption o m then false
  else
    match opt_groups o with
    | [] => true
    | _ :: _ => existsb (inGroups (opt_groups o)) (groups m)
    end.

Definition getTargetValidationMetadatas
    (o : ValidatorOptions) (metadatas : list ValidationMetadata)
    : list ValidationMetadata :=
  filter (selected o) metadatas.

(** The property names of the selected metadata, each once, in the order
    of first registration: the keys of [groupByPropertyName]. *)
Fixpoint propertyNames (ms : list ValidationMetadata) (seen : list string)
    : list string :=
  match ms with
  | [] => []
  | m :: ms' =>
      if existsb (String.eqb (propertyName m)) seen
      then propertyNames ms' seen
      else propertyName m :: propertyNames ms' (propertyName m :: seen)
  end.

Definition metadatasOf (p : string) (ms : list ValidationMetadata)
    : list ValidationMetadata :=
  filter (fun m => String.eqb (propertyName m) p) ms.

(** One entry of the error report: a property and the messages of its
    failed constraints, keyed by the constraint's name. *)
Record ValidationError := mkError {
  property : string;
  constraints : list (string * string)
}.

(** [error.constraints[type] = message]: assigning an existing key keeps
    its position and replaces the message. *)
Fixpoint setConstraint (k v : string) (cs : list (string * string))
    : list (string * string) :=
  match cs with
  | [] => [(k, v)]
  | (k', v') :: cs' =>
      if String.eqb k' k then (k, v) :: cs'
      else (k', v') :: setConstraint k v cs'
  end.

Definition constraintName (t : ValidationType) : string :=
  match t with
  | Length _ _ => "isLength"
  | IsString => "isString"
  | IsDateString => "isDateString"
  | IsOptional => "conditionalValidation"
  end.

Definition showNat (n : nat) : string :=
  NilZero.string_of_uint (Nat.to_uint n).

(** [args.value.length < bound] and [args.value.length > bound]: a value
    that is not a string has no [length], and neither comparison holds of
    [undefined]. *)
Definition lengthBelow (value : option Js.Value) (bound : nat) : bool :=
  match value with
  | Some (Js.VString s) => Nat.ltb (Js.length s) bound
  | _ => false
  end.

Definition lengthAbove (value : option Js.Value) (bound : nat) : bool :=
  match value with
  | Some (Js.VString s) => Nat.ltb bound (Js.length s)
  | _ => false
  end.

(** The decorators' default messages, [$property] and [$constraintN]
    already substituted.  [Length] picks its message by the value's
    [length], the number of code units:
<<
    if (isMinLength && (!args.value || args.value.length < min)) ..
    else if (isMaxLength && args.value.length > max) ..
>> *)
Definition defaultMessage (p : string) (t : ValidationType)
    (value : option Js.Value) : string :=
  match t with
  | Length min max =>
      if (negb (Js.truthy value) || lengthBelow value min)%bool then
        p ++ " must be longer than or equal to " ++ showNat min
          ++ " characters"
      else if lengthAbove value max then
        p ++ " must be shorter than or equal to " ++ showNat max
          ++ " characters"
      else
        p ++ " must be longer than or equal to " ++ showNat min
          ++ " and shorter than or equal to " ++ showNat max
          ++ " characters"
  | IsString => p ++ " must be a string"
  | IsDateString => p ++ " must be a valid ISO 8601 date string"
  | IsOptional => ""
  end.

Definition messageOf (m : ValidationMetadata) (value : option Js.Value)
    : string :=
  match message m with
  | Some s => s
  | None => defaultMessage (propertyName m) (type m) value
  end.

(** The matches of [/[\uD800-\uDBFF][\uDC00-\uDFFF]/g] in a string: its
    surrogate pairs, from left to right. *)
Fixpoint surrogatePairs (s : Js.Str) : nat :=
  match s with
  | [] => O
  | hi :: rest =>
      match rest with
      | [] => O
      | lo :: rest' =>
          if ((55296 <=? hi) && (hi <=? 56319)
              && (56320 <=? lo) && (lo <=? 57343))%N
          then S (surrogatePairs rest')
          else surrogatePairs rest
      end
  end.

(** The matches of [/(\uFE0F|\uFE0E)/g]: the variation selectors. *)
Definition presentationSequences (s : Js.Str) : nat :=
  List.length (filter (fun c => (c =? 65039) || (c =? 65038))%N s).

Section Executor.

(** validator.js's [isISO8601], behind [IsDateString]. *)
Variable isISO8601 : Js.Str -> bool.

(** Whether the validator.js in use takes the variation selectors off the
    length, as its later versions do. *)
Variable selectors : bool.

(** The length validator.js's [isLength] tests: the code units, less one
    for every surrogate pair and, from some version on, for every
    variation selector. *)
Definition charCount (s : Js.Str) : nat :=
  (Js.length s
   - (if selectors then presentationSequences s else 0)
   - surrogatePairs s)%nat.

(** What each decorator's [validate] answers on a value.  [Length],
    [IsString] and [IsDateString] hold of strings only; [IsOptional] lets
    a property be validated when it is neither [undefined] nor [null]. *)
Definition validateValue (t : ValidationType) (value : option Js.Value)
    : bool :=
  match t, value with
  | Length min max, Some (Js.VString s) =>
      (Nat.leb min (charCount s) && Nat.leb (charCount s) max)%bool
  | Length _ _, _ => false
  | IsString, Some (Js.VString _) => true
  | IsString, _ => false
  | IsDateString, Some (Js.VString s) => isISO8601 s
  | IsDateString, _ => false
  | IsOptional, None => false
  | IsOptional, Some Js.VNull => false
  | IsOptional, Some _ => true
  end.

(** [conditionalValidations]: every selected condition must hold for
    the property to be validated at all. *)
Definition conditionalValidations (value : option Js.Value)
    (ms : list ValidationMetadata) : bool :=
  forallb (fun m => validateValue (type m) value)
          (filter isConditional ms).

(** [customValidations]: each failed decorator writes its message under
    its constraint name. *)
Definition customValidations (value : option Js.Value)
    (ms : list ValidationMetadata) : list (string * string) :=
  fold_left
    (fun cs m =>
       if validateValue (type m) value then cs
       else setConstraint (constraintName (type m)) (messageOf m value) cs)
    (filter (fun m => negb (isConditional m)) ms) [].

Definition performValidations (obj : Js.Object)
    (ms : list ValidationMetadata) (p : string) : list ValidationError :=
  let value := obj p in
  let mine := metadatasOf p ms in
  if conditionalValidations value mine then
    match customValidations value mine with
    | [] => []
    | cs => [ {| property := p; constraints := cs |} ]
    end
  else [].

(** [validate(object, validatorOptions)] against the metadata of the
    object's class. *)
Definition validate (o : ValidatorOptions)
    (metadatas : list ValidationMetadata) (obj : Js.Object)
    : list ValidationError :=
  let ms := getTargetValidationMetadatas o metadatas in
  flat_map (performValidations obj ms) (propertyNames ms []).

End Executor.

End ClassValidator.

(** ** The payload classes *)

Module Dto.
Import ClassValidator.

(** The object a pipe hands to its handler: the four properties
    [CreateEventDto] declares, and [id], which the class does not declare
    and which a pipe without [whitelist] lets through.  The class types
    its properties [string]; a body may leave one out or hold another
    scalar in it. *)
Record CreateEventDto := mkDto {
  id : option Js.Value;
  name : option Js.Value;
  description : option Js.Value;
  when : option Js.Value;
  address : option Js.Value
}.

(** [UpdateEventDto extends PartialType(CreateEventDto)], as the README
    gives [update-event.dto.ts]: the same properties, every one
    optional. *)
Definition UpdateEventDto := CreateEventDto.

Definition toObject (d : CreateEventDto) : Js.Object :=
  fun p =>
    if String.eqb p "name" then name d
    else if String.eqb p "description" then description d
    else if String.eqb p "when" then when d
    else if String.eqb p "address" then address d
    else if String.eqb p "id" then id d
    else None.

(** The decorators of [CreateEventDto], in the order they register:
    property by property, and on one property from the decorator nearest
    the declaration upwards. *)
Definition CreateEventDto_metadata : list ValidationMetadata :=
  [ {| propertyName := "name"; type := Length 5 255;
       message := Some "name must have a length between [5,25]";
       groups := []; always := None |};
    {| propertyName := "description"; type := Length 5 255;
       message := None; groups := []; always := None |};
    {| propertyName := "description"; type := IsString;
       message := None; groups := []; always := None |};
    {| propertyName := "when"; type := IsDateString;
       message := None; groups := []; always := None |};
    {| propertyName := "address"; type := Length 10 20;
       message := None; groups := ["update"]; always := None |};
    {| propertyName := "address"; type := Length 5 255;
       message := None; groups := ["create"]; always := None |} ].

(** [PartialType(classRef)] (from @nestjs/mapped-types): the parent's
    validation metadata is copied to the new class, then [IsOptional()],
    with no options, is applied to the property of every copied entry. *)
Definition applyIsOptionalDecorator (p : string) : ValidationMetadata :=
  {| propertyName := p; type := IsOptional;
     message := None; groups := []; always := None |}.

Definition PartialType (parent : list ValidationMetadata)
    : list ValidationMetadata :=
  parent ++ map (fun m => applyIsOptionalDecorator (propertyName m)) parent.

Definition UpdateEventDto_metadata : list ValidationMetadata :=
  PartialType CreateEventDto_metadata.

End Dto.

(** ** Nest's validation pipe *)

Module Nest.
Import ClassValidator Repository.

(** [new ValidationPipe({ groups })]: the options object is handed to
    class-validator as it is; nothing else is set. *)
Definition pipeOptions (gs : list string) : ValidatorOptions :=
  {| opt_groups := gs; opt_always := false; opt_strictGroups := false |}.

(** The [message] array of the 400 response: the constraint messages of
    every error, in order. *)
Definition flattenValidationErrors (errors : list ValidationError)
    : list string :=
  flat_map (fun e => map snd (constraints e)) errors.

Section Pipe.

Variable isISO8601 : Js.Str -> bool.
Variable selectors : bool.

(** [ValidationPipe.transform]: validate the body against the metadata of
    the parameter's class; throw [BadRequestException] when there are
    errors, and pass the body on otherwise, every property of it. *)
Definition ValidationPipe (o : ValidatorOptions)
    (metadatas : list ValidationMetadata) (body : Dto.CreateEventDto)
    : Async Dto.CreateEventDto :=
  match validate isISO8601 selectors o metadatas (Dto.toObject body) with
  | [] => ret body
  | errors =>
      throw (Js.BadRequestException (flattenValidationErrors errors))
  end.

End Pipe.

End Nest.

(** ** The controller *)

Module EventsController.
Import Entity Repository.

Local Open Scope async_scope.

(** [...event] on one property, [event] being a row or [null]: spreading
    [null] adds nothing. *)
Definition ofEvent {A : Type} (event : option Event)
    (f : Event -> option A) : option A :=
  match event with
  | Some e => f e
  | None => None
  end.

(** The status of a successful response: 201 for [@Post()], 204 where
    [@HttpCode(204)] says so, 200 otherwise. *)
Definition findAll_HttpCode : Z := 200.
Definition findOne_HttpCode : Z := 200.
Definition create_HttpCode : Z := 201.
Definition update_HttpCode : Z := 200.
Definition remove_HttpCode : Z := 204.

Section Handlers.

Variable isISO8601 : Js.Str -> bool.
Variable selectors : bool.

(** The time value [new Date(s)] has for a string [s]. *)
Variable Date_parse : Js.Str -> Js.Date.

Variable convert : Event -> option Event.
Variable otherKey : Js.Value -> KeyReading.
Variable scan : list Event -> list Event.

(** [new Date(v)]: an Invalid Date for [undefined], the epoch for
    [null], 0 or 1 for a boolean, the number itself as a time value when
    it is in range, and the parse of a string. *)
Definition newDate (v : option Js.Value) : Js.Date :=
  match v with
  | None => None
  | Some Js.VNull => Some 0
  | Some (Js.VBool b) => Some (if b then 1 else 0)
  | Some (Js.VNumber n) =>
      if Z.leb (Z.abs n) 8640000000000000 then Some n else None
  | Some (Js.VString s) => Date_parse s
  end.

(** [@Get() findAll] *)
Definition findAll : Async (list Event) :=
  find scan.

(** [@Get(':id') findOne] *)
Definition findOne (id : Z) : Async (option Event) :=
  event <- findOneBy id ;;
  ret event.

(** [@Post() create], behind [new ValidationPipe({ groups: ['create'] })]:
    [{ ...input, when: new Date(input.when) }] goes to [save]. *)
Definition create (body : Dto.CreateEventDto) : Async Event :=
  input <- Nest.ValidationPipe isISO8601 selectors
             (Nest.pipeOptions ["create"])
             Dto.CreateEventDto_metadata body ;;
  save convert otherKey
       {| id := Dto.id input;
          name := Dto.name input;
          description := Dto.description input;
          when := newDate (Dto.when input);
          address := Dto.address input |}.

(** [@Patch(':id') update], behind
    [new ValidationPipe({ groups: ['update'] })].  The object literal
    [{ ...event, ...input, when: .. }] is evaluated left to right; reading
    [event.when] of [null] throws. *)
Definition update (id : Z) (body : Dto.UpdateEventDto) : Async Event :=
  input <- Nest.ValidationPipe isISO8601 selectors
             (Nest.pipeOptions ["update"])
             Dto.UpdateEventDto_metadata body ;;
  event <- findOneBy id ;;
  when_ <- (if Js.truthy (Dto.when input)
            then ret (newDate (Dto.when input))
            else match event with
                 | Some e => ret (Entity.when e)
                 | None =>
                     throw (Js.TypeError
                       "Cannot read properties of null (reading 'when')")
                 end) ;;
  save convert otherKey
       {| id := Js.spread (ofEvent event Entity.id) (Dto.id input);
          name := Js.spread (ofEvent event Entity.name) (Dto.name input);
          description := Js.spread (ofEvent event Entity.description)
                                   (Dto.description input);
          when := when_;
          address := Js.spread (ofEvent event Entity.address)
                               (Dto.address input) |}.

(** [@Delete(':id') @HttpCode(204) remove] *)
Definition remove (id : Z) : Async unit :=
  event <- findOneBy id ;;
  Repository.remove event.

(** A request to the controller and the store it leaves behind. *)
Inductive Request :=
| GET_all
| GET_one (id : Z)
| POST (body : Dto.CreateEventDto)
| PATCH (id : Z) (body : Dto.UpdateEventDto)
| DELETE (id : Z).

(** Every request but [DELETE] leaves the rows of the table in place. *)
Definition isDelete (r : Request) : bool :=
  match r with
  | DELETE _ => true
  | _ => false
  end.

Definition serve (r : Request) (st : Store) : Store :=
  match r with
  | GET_all => snd (findAll st)
  | GET_one i => snd (findOne i st)
  | POST body => snd (create body st)
  | PATCH i body => snd (update i body st)
  | DELETE i => snd (remove i st)
  end.

Definition serveAll (rs : list Request) (st : Store) : Store :=
  fold_left (fun s r => serve r s) rs st.

(** The record a request can write, if any: the one its body's [id]
    names, or for an update without [id] in the body the one of the
    route. *)
Definition target (r : Request) : option Z :=
  match r with
  | POST body =>
      match keyOf otherKey (Dto.id body) with
      | Key k => Some k
      | _ => None
      end
  | PATCH i body =>
      match keyOf otherKey
              (Js.spread (Some (Js.VNumber i)) (Dto.id body)) with
      | Key k => Some k
      | _ => None
      end
  | DELETE i => Some i
  | _ => None
  end.

End Handlers.

Section Practice.

Variable Date_parse : Js.Str -> Js.Date.

(** SQL's [column LIKE pattern] under the table's collation. *)
Variable Like : string -> Js.Value -> bool.

(** The [where] of [practiceQueries], an array: the first object ([id]
    above 3 and [when] after the given date) or the second ([description]
    like [%meet%]).  A [NULL] column satisfies neither comparison. *)
Definition practiceWhere (r : Event) : bool :=
  ((MoreThan 3 (keyNumber r)
    && match Date_parse (Js.ofString "2021-02-12T13:00:00") with
       | Some bound => MoreThan bound (when r)
       | None => false
       end)
   || match description r with
      | Some d => Like "%meet%" d
      | None => false
      end)%bool.

(** [@Get('/practice') practiceQueries]: [select: ['id', 'name']],
    [take: 2], [order: { id: 'DESC' }]. *)
Definition practiceQueries
    : Async (list (option Js.Value * option Js.Value)) :=
  findOrderedByIdDesc (fun r => (id r, name r)) practiceWhere 2.

End Practice.

End EventsController.

(** ** A runtime, an engine and data to evaluate the handlers on *)

Module Sample.
Import Entity Repository.

Definition digit (c : N) : option Z :=
  if ((48 <=? c) && (c <=? 57))%N then Some (Z.of_N c - 48) else None.

Definition number (cs : list N) : option Z :=
  fold_left
    (fun acc c =>
       match acc, digit c with
       | Some a, Some d => Some (10 * a + d)
       | _, _ => None
       end)
    cs (Some 0).

(** The date-only form [YYYY-MM-DD]: year, month, day. *)
Definition dateOnly (s : Js.Str) : option (Z * Z * Z) :=
  match s with
  | [y1; y2; y3; y4; h1; m1; m2; h2; d1; d2] =>
      if ((h1 =? 45) && (h2 =? 45))%N then
        match number [y1; y2; y3; y4], number [m1; m2], number [d1; d2] with
        | Some y, Some m, Some d =>
            if ((1 <=? m) && (m <=? 12) && (1 <=? d) && (d <=? 31))%bool
            then Some (y, m, d)
            else None
        | _, _, _ => None
        end
      else None
  | _ => None
  end.

(** Days from 1970-01-01 to a date of the proleptic Gregorian calendar. *)
Definition daysFromCivil (y m d : Z) : Z :=
  let y' := if m <=? 2 then y - 1 else y in
  let era := y' / 400 in
  let yoe := y' - era * 400 in
  let mp := (m + 9) mod 12 in
  let doy := (153 * mp + 2) / 5 + d - 1 in
  let doe := yoe * 365 + yoe / 4 - yoe / 100 + doy in
  era * 146097 + doe - 719468.

(** A stand-in for validator.js's [isISO8601] and for the parser of
    [new Date(s)] that knows the date-only form, read as UTC midnight, and
    nothing else.  It only serves to run the handlers on examples. *)
Definition isISO8601 (s : Js.Str) : bool :=
  match dateOnly s with
  | Some _ => true
  | None => false
  end.

Definition Date_parse (s : Js.Str) : Js.Date :=
  match dateOnly s with
  | Some (y, m, d) => Some (daysFromCivil y m d * 86400000)
  | None => None
  end.

(** The validator.js of the examples: one that leaves the variation
    selectors in the length. *)
Definition selectors : bool := false.

(** An engine for a table whose text columns are [NOT NULL varchar(255)]
    and whose [when] is a [NOT NULL datetime]: it writes an object that
    has a string of at most 255 code units in each text column and a
    valid date, as it is, and refuses any other. *)
Definition varchar255 (v : option Js.Value) : bool :=
  match v with
  | Some (Js.VString s) => Nat.leb (Js.length s) 255
  | _ => false
  end.

Definition convert (e : Event) : option Event :=
  if (varchar255 (name e) && varchar255 (description e)
      && varchar255 (address e)
      && match when e with Some _ => true | None => false end)%bool
  then Some e
  else None.

(** An engine that refuses every [id] that is neither [null] nor a
    non-zero integer, and yields the rows in the order of the table. *)
Definition otherKey (v : Js.Value) : KeyReading := BadKey.

Definition scan (rs : list Event) : list Event := rs.

Definition text (s : string) : option Js.Value :=
  Some (Js.VString (Js.ofString s)).

Definition emptyStore : Store :=
  {| rows := []; autoIncrement := 1 |}.

Definition meeting : Event :=
  {| id := Some (Js.VNumber 1);
     name := text "Team meeting";
     description := text "Weekly planning";
     when := Some 1643760000000;
     address := text "22 Main Avenue" |}.

Definition oneEvent : Store :=
  {| rows := [meeting]; autoIncrement := 2 |}.

Definition lunch : Event :=
  {| id := Some (Js.VNumber 2);
     name := text "Team lunch";
     description := text "We meet at noon";
     when := Some 1643846400000;
     address := text "5 Market Square" |}.

Definition twoEvents : Store :=
  {| rows := [meeting; lunch]; autoIncrement := 3 |}.

(** The request body of the README's validation example. *)
Definition readmeBody : Dto.CreateEventDto :=
  {| Dto.id := None;
     Dto.name := text "a";
     Dto.description := text "hi";
     Dto.when := text "2022-02-02";
     Dto.address := text "22 av" |}.

Definition goodBody : Dto.CreateEventDto :=
  {| Dto.id := None;
     Dto.name := text "Team meeting";
     Dto.description := text "Weekly planning";
     Dto.when := text "2022-02-02";
     Dto.address := text "22 Main Avenue" |}.

(** A body with every property of the DTO and the given [id] and
    [address]. *)
Definition bodyWith (i : option Js.Value) (a : option Js.Value)
    : Dto.CreateEventDto :=
  {| Dto.id := i;
     Dto.name := text "Retrospective";
     Dto.description := text "Monthly review";
     Dto.when := text "2023-05-01";
     Dto.address := a |}.

Definition nameOnly (n : Js.Str) : Dto.UpdateEventDto :=
  {| Dto.id := None;
     Dto.name := Some (Js.VString n);
     Dto.description := None;
     Dto.when := None;
     Dto.address := None |}.

(** A body the update pipe accepts. *)
Definition moveBody : Dto.UpdateEventDto :=
  {| Dto.id := None;
     Dto.name := None;
     Dto.description := None;
     Dto.when := text "2022-03-01";
     Dto.address := text "10 Downing St" |}.

Definition withName (n : Js.Str) : Dto.CreateEventDto :=
  {| Dto.id := None;
     Dto.name := Some (Js.VString n);
     Dto.description := text "Weekly planning";
     Dto.when := text "2022-02-02";
     Dto.address := text "22 Main Avenue" |}.

Definition replicate (n : nat) (c : N) : Js.Str := repeat c n.

(** [n] times U+1F600, a surrogate pair each. *)
Fixpoint grins (n : nat) : Js.Str :=
  match n with
  | O => []
  | S n' => 55357%N :: 56832%N :: grins n'
  end.

(** The controller on this runtime and engine. *)
Definition createPipe : Js.Object -> list ClassValidator.ValidationError :=
  ClassValidator.validate isISO8601 selectors (Nest.pipeOptions ["create"])
    Dto.CreateEventDto_metadata.

Definition updatePipe : Js.Object -> list ClassValidator.ValidationError :=
  ClassValidator.validate isISO8601 selectors (Nest.pipeOptions ["update"])
    Dto.UpdateEventDto_metadata.

Definition create : Dto.CreateEventDto -> Async Event :=
  EventsController.create isISO8601 selectors Date_parse convert otherKey.

Definition update : Z -> Dto.UpdateEventDto -> Async Event :=
  EventsController.update isISO8601 selectors Date_parse convert otherKey.

Definition serve : EventsController.Request -> Store -> Store :=
  EventsController.serve isISO8601 selectors Date_parse convert otherKey
    scan.

Definition serveAll : list EventsController.Request -> Store -> Store :=
  EventsController.serveAll isISO8601 selectors Date_parse convert
    otherKey scan.

Definition charCount : Js.Str -> nat := ClassValidator.charCount selectors.

End Sample.

(** * Properties *)

Import Entity Repository ClassValidator.

(** ** Rows and keys *)

Lemma hasId_id (i : Z) (e : Event) :
  hasId i e = true <-> id e = Some (Js.VNumber i).
Proof.
  unfold hasId. destruct (id e) as [[| |j|]|]; split; try discriminate.
  - intros H. apply Z.eqb_eq in H. now subst.
  - intros H. injection H as ->. apply Z.eqb_refl.
Qed.

Lemma hasId_withId (k : Z) (e : Event) : hasId k (withId k e) = true.
Proof. unfold hasId. simpl. apply Z.eqb_refl. Qed.

Lemma find_hasId (i : Z) (rs : list Event) (e : Event) :
  List.find (hasId i) rs = Some e ->
  In e rs /\ id e = Some (Js.VNumber i).
Proof.
  intros H. apply find_some in H. destruct H as [Hin Hid].
  split; [exact Hin|]. now apply hasId_id.
Qed.

Lemma find_hasId_none (i : Z) (rs : list Event) :
  List.find (hasId i) rs = None ->
  forall e, In e rs -> id e <> Some (Js.VNumber i).
Proof.
  intros H e Hin Hid.
  pose proof (find_none _ _ H e Hin) as Hf.
  apply hasId_id in Hid. congruence.
Qed.

Lemma find_after_delete (i : Z) (rs : list Event) :
  List.find (hasId i) (filter (fun r => negb (hasId i r)) rs) = None.
Proof.
  induction rs as [|r rs IH]; simpl; [reflexivity|].
  destruct (hasId i r) eqn:E; simpl; [exact IH|].
  now rewrite E.
Qed.

Lemma wellFormed_fresh (st : Store) :
  wellFormed st -> List.find (hasId (autoIncrement st)) (rows st) = None.
Proof.
  unfold wellFormed. intros H.
  induction (rows st) as [|r rs IH]; simpl; [reflexivity|].
  inversion H as [|? ? [j [Hj Hlt]] Hrest]; subst.
  destruct (hasId (autoIncrement st) r) eqn:E; [|now apply IH].
  apply hasId_id in E. rewrite Hj in E. injection E as E. lia.
Qed.

Lemma find_app_fresh (i : Z) (rs : list Event) (e : Event) :
  List.find (hasId i) rs = None -> hasId i e = true ->
  List.find (hasId i) (rs ++ [e]) = Some e.
Proof.
  intros Hnone He.
  induction rs as [|r rs IH]; simpl in *.
  - now rewrite He.
  - destruct (hasId i r); [discriminate|]. now apply IH.
Qed.

Lemma find_app_some (i : Z) (rs more : list Event) (e : Event) :
  List.find (hasId i) rs = Some e ->
  List.find (hasId i) (rs ++ more) = Some e.
Proof.
  induction rs as [|r rs IH]; simpl; [discriminate|].
  destruct (hasId i r); [trivial|exact IH].
Qed.

Lemma hasId_other (i j : Z) (r : Event) :
  j <> i -> hasId i r = true -> hasId j r = false.
Proof.
  intros Hne H. apply hasId_id in H.
  destruct (hasId j r) eqn:E; [|reflexivity].
  apply hasId_id in E. congruence.
Qed.

Lemma replace_keeps_ids (i : Z) (m : Event) (rs : list Event) :
  hasId i m = true ->
  map id (map (fun r => if hasId i r then m else r) rs) = map id rs.
Proof.
  intros Hm. apply hasId_id in Hm.
  induction rs as [|r rs IH]; simpl; [reflexivity|].
  rewrite IH. f_equal.
  destruct (hasId i r) eqn:E; [|reflexivity].
  apply hasId_id in E. congruence.
Qed.

Lemma find_after_replace (i : Z) (rs : list Event) (e m : Event) :
  List.find (hasId i) rs = Some e -> hasId i m = true ->
  List.find (hasId i) (map (fun r => if hasId i r then m else r) rs)
  = Some m.
Proof.
  intros H Hm. induction rs as [|r rs IH]; simpl in *; [discriminate|].
  destruct (hasId i r) eqn:E.
  - now rewrite Hm.
  - rewrite E. now apply IH.
Qed.

Lemma find_replace_other (i j : Z) (m : Event) (rs : list Event) :
  j <> i -> hasId i m = true ->
  List.find (hasId j) (map (fun r => if hasId i r then m else r) rs)
  = List.find (hasId j) rs.
Proof.
  intros Hne Hm. induction rs as [|r rs IH]; simpl; [reflexivity|].
  destruct (hasId i r) eqn:E.
  - now rewrite (hasId_other i j m Hne Hm), (hasId_other i j r Hne E).
  - now rewrite IH.
Qed.

Lemma find_filter_other (i j : Z) (rs : list Event) :
  j <> i ->
  List.find (hasId j) (filter (fun r => negb (hasId i r)) rs)
  = List.find (hasId j) rs.
Proof.
  intros Hne. induction rs as [|r rs IH]; simpl; [reflexivity|].
  destruct (hasId i r) eqn:E; simpl.
  - now rewrite (hasId_other i j r Hne E).
  - now rewrite IH.
Qed.

Lemma replace_twice (i : Z) (m : Event) (rs : list Event) :
  hasId i m = true ->
  map (fun r => if hasId i r then m else r)
      (map (fun r => if hasId i r then m else r) rs)
  = map (fun r => if hasId i r then m else r) rs.
Proof.
  intros Hm. rewrite map_map. apply map_ext. intros r.
  destruct (hasId i r) eqn:E; [now rewrite Hm|now rewrite E].
Qed.

Lemma NoDup_ids_filter (keep : Event -> bool) (rs : list Event) :
  NoDup (map id rs) -> NoDup (map id (filter keep rs)).
Proof.
  induction rs as [|r rs IH]; simpl; [trivial|].
  intros H. inversion H as [|? ? Hnot Hrest]; subst.
  destruct (keep r); simpl; [|now apply IH].
  constructor; [|now apply IH].
  intros Hin. apply Hnot. apply in_map_iff in Hin.
  destruct Hin as [x [Ex Hx]]. apply filter_In in Hx.
  apply in_map_iff. exists x. tauto.
Qed.

Lemma NoDup_ids_append (k : Z) (rs : list Event) (e : Event) :
  List.find (hasId k) rs = None -> NoDup (map id rs) ->
  NoDup (map id (rs ++ [withId k e])).
Proof.
  intros Hnone Hnd. rewrite map_app. simpl.
  apply NoDup_app; [exact Hnd|repeat constructor; intros []|].
  intros x Hx [<-|[]].
  apply in_map_iff in Hx. destruct Hx as [r [Er Hr]].
  exact (find_hasId_none k rs Hnone r Hr Er).
Qed.

Lemma find_unique (i : Z) (rs : list Event) (e : Event) :
  NoDup (map id rs) -> In e rs -> id e = Some (Js.VNumber i) ->
  List.find (hasId i) rs = Some e.
Proof.
  induction rs as [|r rs IH]; simpl; [intros _ []|].
  intros Hnd Hin Hid. inversion Hnd as [|? ? Hnot Hrest]; subst.
  destruct Hin as [->|Hin].
  - apply hasId_id in Hid. now rewrite Hid.
  - destruct (hasId i r) eqn:E; [|now apply IH].
    exfalso. apply Hnot. apply hasId_id in E.
    rewrite E, <- Hid. now apply in_map.
Qed.

Lemma spread_spread {A : Type} (a b : option A) :
  Js.spread (Js.spread a b) b = Js.spread a b.
Proof. now destruct b. Qed.

Lemma spread_same {A : Type} (a b : option A) :
  Js.spread a (Js.spread a b) = Js.spread a b.
Proof. now destruct b; destruct a. Qed.

(** ** The engine *)

Section Engine.

Variable convert : Event -> option Event.
Variable otherKey : Js.Value -> KeyReading.

Local Abbreviation save := (Repository.save convert otherKey).
Local Abbreviation keyOf := (Repository.keyOf otherKey).

(** A [save] that throws has written nothing. *)
Lemma save_throws_unchanged (e : Event) (st : Store) (x : Js.Exception) :
  fst (save e st) = Js.Throw x -> snd (save e st) = st.
Proof.
  unfold Repository.save.
  destruct (keyOf (id e)) as [|k|].
  - destruct (convert e); [discriminate|reflexivity].
  - destruct (List.find (hasId k) (rows st)) as [old|].
    + destruct (convert (overlay k old e)); [discriminate|reflexivity].
    + destruct (convert e); [discriminate|reflexivity].
  - reflexivity.
Qed.

(** [save] leaves the keys of the rows where they are and at most appends
    a row. *)
Lemma save_keeps_ids (e : Event) (st : Store) :
  exists added,
    map id (rows (snd (save e st))) = (map id (rows st) ++ added)%list.
Proof.
  unfold Repository.save.
  destruct (keyOf (id e)) as [|k|].
  - destruct (convert e) as [r|]; simpl.
    + eexists. now rewrite map_app.
    + exists []. now rewrite app_nil_r.
  - destruct (List.find (hasId k) (rows st)) as [old|].
    + destruct (convert (overlay k old e)) as [r|]; simpl.
      * exists []. rewrite app_nil_r.
        apply replace_keeps_ids, hasId_withId.
      * exists []. now rewrite app_nil_r.
    + destruct (convert e) as [r|]; simpl.
      * eexists. now rewrite map_app.
      * exists []. now rewrite app_nil_r.
  - exists []. now rewrite app_nil_r.
Qed.

Lemma wellFormed_append (k next : Z) (st : Store) (r : Event) :
  wellFormed st -> autoIncrement st <= next -> k < next ->
  wellFormed {| rows := rows st ++ [withId k r]; autoIncrement := next |}.
Proof.
  unfold wellFormed. simpl. intros H Hle Hlt. apply Forall_app. split.
  - eapply Forall_impl; [|exact H]. simpl.
    intros x [j [Hj Hj']]. exists j. split; [exact Hj|lia].
  - constructor; [|constructor]. exists k. split; [reflexivity|lia].
Qed.

Lemma save_wellFormed (e : Event) (st : Store) :
  wellFormed st -> wellFormed (snd (save e st)).
Proof.
  intros Hwf. unfold Repository.save.
  destruct (keyOf (id e)) as [|k|]; [| |exact Hwf].
  - destruct (convert e) as [r|]; simpl; [|exact Hwf].
    apply wellFormed_append; [exact Hwf|lia|lia].
  - destruct (List.find (hasId k) (rows st)) as [old|] eqn:Hf.
    + destruct (convert (overlay k old e)) as [r|]; simpl; [|exact Hwf].
      destruct (find_hasId _ _ _ Hf) as [Hin Hid].
      unfold wellFormed in *. simpl. rewrite Forall_forall in Hwf.
      apply Forall_forall. intros x Hx.
      apply in_map_iff in Hx. destruct Hx as [x0 [Ex Hx0]].
      destruct (hasId k x0); subst x; [|now apply Hwf].
      destruct (Hwf old Hin) as [j [Hj Hlt]].
      exists k. split; [reflexivity|]. congruence.
    + destruct (convert e) as [r|]; simpl; [|exact Hwf].
      apply wellFormed_append; [exact Hwf|lia|lia].
Qed.

Lemma save_NoDup (e : Event) (st : Store) :
  wellFormed st -> NoDup (map id (rows st)) ->
  NoDup (map id (rows (snd (save e st)))).
Proof.
  intros Hwf Hnd. unfold Repository.save.
  destruct (keyOf (id e)) as [|k|]; [| |exact Hnd].
  - destruct (convert e) as [r|]; simpl; [|exact Hnd].
    apply NoDup_ids_append; [now apply wellFormed_fresh|exact Hnd].
  - destruct (List.find (hasId k) (rows st)) as [old|] eqn:Hf.
    + destruct (convert (overlay k old e)) as [r|]; simpl; [|exact Hnd].
      rewrite replace_keeps_ids; [exact Hnd|apply hasId_withId].
    + destruct (convert e) as [r|]; simpl; [|exact Hnd].
      now apply NoDup_ids_append.
Qed.

(** [save] writes the row of the object's key and no other. *)
Lemma save_other_rows (e : Event) (st : Store) (j : Z) (r : Event) :
  keyOf (id e) <> Key j ->
  List.find (hasId j) (rows st) = Some r ->
  List.find (hasId j) (rows (snd (save e st))) = Some r.
Proof.
  intros Hkey Hf. unfold Repository.save.
  destruct (keyOf (id e)) as [|k|]; [| |exact Hf].
  - destruct (convert e); simpl; [|exact Hf].
    now apply find_app_some.
  - assert (Hne : j <> k) by congruence.
    destruct (List.find (hasId k) (rows st)) as [old|].
    + destruct (convert (overlay k old e)); simpl; [|exact Hf].
      rewrite find_replace_other; [exact Hf|exact Hne|apply hasId_withId].
    + destruct (convert e); simpl; [|exact Hf].
      now apply find_app_some.
Qed.


End Engine.

(** ** The executor and the two pipes *)

Section Validator.

Variable isISO8601 : Js.Str -> bool.
Variable selectors : bool.

Local Abbreviation charCount := (ClassValidator.charCount selectors).

Local Abbreviation satisfies := (validateValue isISO8601 selectors).
Local Abbreviation validate :=
  (ClassValidator.validate isISO8601 selectors).

Lemma setConstraint_not_nil (k v : string) (cs : list (string * string)) :
  setConstraint k v cs <> [].
Proof.
  destruct cs as [|[k' v'] cs]; simpl; [discriminate|].
  destruct (String.eqb k' k); discriminate.
Qed.

Lemma customValidations_nil (value : option Js.Value)
    (ms : list ValidationMetadata) :
  customValidations isISO8601 selectors value ms = [] <->
  forallb (fun m => satisfies (type m) value)
          (filter (fun m => negb (isConditional m)) ms) = true.
Proof.
  unfold customValidations.
  generalize (filter (fun m => negb (isConditional m)) ms) as l.
  assert (Hacc : forall l acc,
    fold_left
      (fun cs m =>
         if satisfies (type m) value then cs
         else setConstraint (constraintName (type m)) (messageOf m value) cs)
      l acc = [] <->
    acc = [] /\ forallb (fun m => satisfies (type m) value) l = true).
  { induction l as [|m l IH]; intros acc; simpl.
    - tauto.
    - rewrite IH. destruct (satisfies (type m) value); simpl.
      + tauto.
      + split; [|intros [_ H]; discriminate].
        intros [H _]. now apply setConstraint_not_nil in H. }
  intros l. rewrite Hacc. tauto.
Qed.

Lemma flat_map_nil {A B : Type} (f : A -> list B) (l : list A) :
  flat_map f l = [] <-> forall x, In x l -> f x = [].
Proof.
  induction l as [|a l IH]; simpl.
  - split; [intros _ x []|reflexivity].
  - split.
    + intros H. apply app_eq_nil in H. destruct H as [Ha Hl].
      intros x [<-|Hx]; [exact Ha|]. now apply IH.
    + intros H. rewrite (H a (or_introl eq_refl)). simpl.
      apply IH. intros x Hx. apply H. now right.
Qed.

Lemma seen_In (p : string) (seen : list string) :
  existsb (String.eqb p) seen = true <-> In p seen.
Proof.
  rewrite existsb_exists. split.
  - intros [x [Hx E]]. apply String.eqb_eq in E. now subst.
  - intros H. exists p. split; [exact H|apply String.eqb_refl].
Qed.

Lemma propertyNames_In (ms : list ValidationMetadata)
    (seen : list string) (m : ValidationMetadata) :
  In m ms -> ~ In (propertyName m) seen ->
  In (propertyName m) (propertyNames ms seen).
Proof.
  revert seen. induction ms as [|m0 ms IH]; intros seen Hin Hseen;
    [destruct Hin|].
  simpl. destruct (existsb (String.eqb (propertyName m0)) seen) eqn:E.
  - destruct Hin as [->|Hin]; [|now apply IH].
    apply seen_In in E. contradiction.
  - destruct Hin as [->|Hin]; [now left|].
    destruct (String.eqb_spec (propertyName m0) (propertyName m))
      as [Heq|Hne]; [now left|].
    right. apply IH; [exact Hin|].
    intros [H|H]; [contradiction|contradiction].
Qed.

(** The executor reports nothing exactly when every selected decorator
    that is not a condition holds of its property, or the conditions
    selected for that property excuse it. *)
Lemma validate_nil (o : ValidatorOptions)
    (metadatas : list ValidationMetadata) (obj : Js.Object) :
  validate o metadatas obj = [] <->
  forallb
    (fun m =>
       isConditional m
       || negb (conditionalValidations isISO8601 selectors
                  (obj (propertyName m))
                  (metadatasOf (propertyName m)
                     (getTargetValidationMetadatas o metadatas)))
       || satisfies (type m) (obj (propertyName m)))%bool
    (getTargetValidationMetadatas o metadatas) = true.
Proof.
  unfold ClassValidator.validate.
  set (sel := getTargetValidationMetadatas o metadatas).
  rewrite flat_map_nil, forallb_forall. split.
  - intros H m Hm.
    destruct (isConditional m) eqn:Hc; [reflexivity|]. simpl.
    pose proof (H (propertyName m)
                  (propertyNames_In sel [] m Hm (fun F => F))) as Hp.
    unfold performValidations in Hp.
    destruct (conditionalValidations isISO8601 selectors
                (obj (propertyName m)) (metadatasOf (propertyName m) sel));
      [|reflexivity].
    simpl.
    destruct (customValidations isISO8601 selectors
                (obj (propertyName m)) (metadatasOf (propertyName m) sel))
      eqn:Hcv; [|discriminate].
    apply customValidations_nil in Hcv.
    rewrite forallb_forall in Hcv. apply Hcv.
    apply filter_In. split; [|now rewrite Hc].
    apply filter_In. split; [exact Hm|apply String.eqb_refl].
  - intros H p _. unfold performValidations.
    destruct (conditionalValidations isISO8601 selectors (obj p)
                (metadatasOf p sel)) eqn:Hcond; [|reflexivity].
    assert (Hcv : customValidations isISO8601 selectors (obj p)
                    (metadatasOf p sel) = []).
    { apply customValidations_nil, forallb_forall. intros m Hm.
      apply filter_In in Hm. destruct Hm as [Hm Hc].
      apply filter_In in Hm. destruct Hm as [Hm Hp].
      apply String.eqb_eq in Hp. subst p.
      apply negb_true_iff in Hc.
      pose proof (H m Hm) as Hpass. rewrite Hc, Hcond in Hpass.
      exact Hpass. }
    now rewrite Hcv.
Qed.

(** Under [groups: ['create']] the executor selects the one decorator
    tagged [create]: the decorators of [name], [description] and [when]
    carry no group and no [always], and the filter leaves them out. *)
Lemma create_group_metadata :
  getTargetValidationMetadatas (Nest.pipeOptions ["create"])
    Dto.CreateEventDto_metadata
  = [ {| propertyName := "address"; type := Length 5 255;
         message := None; groups := ["create"]; always := None |} ].
Proof. reflexivity. Qed.

(** Under [groups: ['update']] likewise: the [IsOptional] entries that
    [PartialType] adds carry no group either. *)
Lemma update_group_metadata :
  getTargetValidationMetadatas (Nest.pipeOptions ["update"])
    Dto.UpdateEventDto_metadata
  = [ {| propertyName := "address"; type := Length 10 20;
         message := None; groups := ["update"]; always := None |} ].
Proof. reflexivity. Qed.

Lemma validate_create (body : Dto.CreateEventDto) :
  validate (Nest.pipeOptions ["create"])
    Dto.CreateEventDto_metadata (Dto.toObject body)
  = if satisfies (Length 5 255) (Dto.address body) then []
    else [ {| property := "address";
              constraints :=
                [("isLength",
                  defaultMessage "address" (Length 5 255)
                    (Dto.address body))] |} ].
Proof.
  destruct body as [i n d w a].
  cbv -[Nat.leb defaultMessage ClassValidator.charCount].
  destruct a as [[| | |s]|]; try reflexivity.
  destruct (Nat.leb 5 (charCount s)); [|reflexivity].
  destruct (Nat.leb (charCount s) 255); reflexivity.
Qed.

Lemma validate_update (body : Dto.UpdateEventDto) :
  validate (Nest.pipeOptions ["update"])
    Dto.UpdateEventDto_metadata (Dto.toObject body)
  = if satisfies (Length 10 20) (Dto.address body) then []
    else [ {| property := "address";
              constraints :=
                [("isLength",
                  defaultMessage "address" (Length 10 20)
                    (Dto.address body))] |} ].
Proof.
  destruct body as [i n d w a].
  cbv -[Nat.leb defaultMessage ClassValidator.charCount].
  destruct a as [[| | |s]|]; try reflexivity.
  destruct (Nat.leb 10 (charCount s)); [|reflexivity].
  destruct (Nat.leb (charCount s) 20); reflexivity.
Qed.

Lemma satisfies_Length (min max : nat) (v : option Js.Value) :
  satisfies (Length min max) v = true <->
  exists s, v = Some (Js.VString s)
            /\ (min <= charCount s <= max)%nat.
Proof.
  destruct v as [[| | |s]|]; simpl;
    try (split; [discriminate|intros [s' [E _]]; discriminate]).
  rewrite andb_true_iff, !Nat.leb_le. split.
  - intros H. now exists s.
  - intros [s' [E H]]. now inversion E; subst.
Qed.

Lemma satisfies_Length_IsString (min max : nat) (v : option Js.Value) :
  satisfies (Length min max) v = true -> satisfies IsString v = true.
Proof. destruct v as [[| | |s]|]; simpl; try discriminate. reflexivity. Qed.

Lemma satisfies_Length_wider (v : option Js.Value) :
  satisfies (Length 10 20) v = true -> satisfies (Length 5 255) v = true.
Proof.
  rewrite !satisfies_Length. intros [s [E H]]. exists s. split; [exact E|lia].
Qed.

(** What [IsOptional] excuses: a property that is [undefined] or
    [null]. *)
Lemma optional_excuses (t : ValidationType) (v : option Js.Value) :
  (negb (satisfies IsOptional v) || satisfies t v)%bool = true <->
  v = None \/ v = Some Js.VNull \/ satisfies t v = true.
Proof.
  destruct v as [[| | |s]|]; simpl; split; intros H;
    try tauto; try (now right; right);
    destruct H as [H|[H|H]]; try discriminate; try exact H;
    try reflexivity.
Qed.

End Validator.

(** ** The controller *)

Section Controller.

Variable isISO8601 : Js.Str -> bool.
Variable selectors : bool.

Local Abbreviation charCount := (ClassValidator.charCount selectors).
Variable Date_parse : Js.Str -> Js.Date.
Variable convert : Event -> option Event.
Variable otherKey : Js.Value -> KeyReading.
Variable scan : list Event -> list Event.

Local Abbreviation create :=
  (EventsController.create isISO8601 selectors Date_parse convert otherKey).
Local Abbreviation update :=
  (EventsController.update isISO8601 selectors Date_parse convert otherKey).
Local Abbreviation findOne := EventsController.findOne.
Local Abbreviation remove := EventsController.remove.
Local Abbreviation newDate := (EventsController.newDate Date_parse).
Local Abbreviation save := (Repository.save convert otherKey).
Local Abbreviation keyOf := (Repository.keyOf otherKey).
Local Abbreviation serve :=
  (EventsController.serve isISO8601 selectors Date_parse convert otherKey
     scan).
Local Abbreviation serveAll :=
  (EventsController.serveAll isISO8601 selectors Date_parse convert
     otherKey scan).
Local Abbreviation satisfies := (validateValue isISO8601 selectors).
Local Abbreviation createPipe :=
  (validate isISO8601 selectors (Nest.pipeOptions ["create"])
     Dto.CreateEventDto_metadata).
Local Abbreviation updatePipe :=
  (validate isISO8601 selectors (Nest.pipeOptions ["update"])
     Dto.UpdateEventDto_metadata).

(** The object [create] hands to [save], and the one [update] does when
    it has found the record. *)
Local Abbreviation created body :=
  {| id := Dto.id body;
     name := Dto.name body;
     description := Dto.description body;
     when := newDate (Dto.when body);
     address := Dto.address body |}.

Local Abbreviation merged e body :=
  {| id := Js.spread (id e) (Dto.id body);
     name := Js.spread (name e) (Dto.name body);
     description := Js.spread (description e) (Dto.description body);
     when := if Js.truthy (Dto.when body)
             then newDate (Dto.when body) else when e;
     address := Js.spread (address e) (Dto.address body) |}.

Lemma spread_None {A : Type} (b : option A) : Js.spread None b = b.
Proof. now destruct b. Qed.

(** The handlers in full, by cases. *)
Lemma create_cases (body : Dto.CreateEventDto) (st : Store) :
  create body st =
  if satisfies (Length 5 255) (Dto.address body)
  then save (created body) st
  else (Js.Throw (Js.BadRequestException
          [defaultMessage "address" (Length 5 255) (Dto.address body)]),
        st).
Proof.
  unfold EventsController.create, bind, Nest.ValidationPipe.
  rewrite validate_create.
  destruct (satisfies (Length 5 255) (Dto.address body)); reflexivity.
Qed.

Lemma update_cases (i : Z) (body : Dto.UpdateEventDto) (st : Store) :
  update i body st =
  if satisfies (Length 10 20) (Dto.address body)
  then match List.find (hasId i) (rows st) with
       | Some e => save (merged e body) st
       | None =>
           if Js.truthy (Dto.when body)
           then save (created body) st
           else (Js.Throw (Js.TypeError
                   "Cannot read properties of null (reading 'when')"), st)
       end
  else (Js.Throw (Js.BadRequestException
          [defaultMessage "address" (Length 10 20) (Dto.address body)]),
        st).
Proof.
  unfold EventsController.update, bind, Nest.ValidationPipe, findOneBy.
  rewrite validate_update.
  destruct (satisfies (Length 10 20) (Dto.address body)); [|reflexivity].
  simpl.
  destruct (List.find (hasId i) (rows st)) as [e|]; simpl.
  - destruct (Js.truthy (Dto.when body)); reflexivity.
  - destruct (Js.truthy (Dto.when body)); [|reflexivity].
    simpl. now rewrite !spread_None.
Qed.

Lemma remove_cases (i : Z) (st : Store) :
  remove i st =
  match List.find (hasId i) (rows st) with
  | Some _ =>
      (Js.Return tt,
       {| rows := filter (fun r => negb (hasId i r)) (rows st);
          autoIncrement := autoIncrement st |})
  | None => (Js.Throw Js.MustBeEntityError, st)
  end.
Proof.
  unfold EventsController.remove, bind, findOneBy, Repository.remove.
  destruct (List.find (hasId i) (rows st)) as [e|] eqn:Hf; simpl;
    [|reflexivity].
  destruct (find_hasId _ _ _ Hf) as [_ Hid]. now rewrite Hid.
Qed.

Lemma findOne_find (i : Z) (st : Store) (r : option Event) :
  findOne i st = (Js.Return r, st) <-> List.find (hasId i) (rows st) = r.
Proof.
  unfold EventsController.findOne, bind, findOneBy, ret. split.
  - intros H. now injection H.
  - intros <-. reflexivity.
Qed.

(** [save] throws no [BadRequestException]. *)
Lemma save_not_BadRequest (e : Event) (st : Store) (msgs : list string) :
  fst (save e st) <> Js.Throw (Js.BadRequestException msgs).
Proof.
  unfold Repository.save.
  destruct (keyOf (id e)) as [|k|]; [| |discriminate].
  - destruct (convert e); discriminate.
  - destruct (List.find (hasId k) (rows st)) as [old|].
    + destruct (convert (overlay k old e)); discriminate.
    + destruct (convert e); discriminate.
Qed.

(** [save] of an object without a key that the engine takes. *)
Lemma save_insert (e r : Event) (st : Store) :
  keyOf (id e) = NoKey -> convert e = Some r ->
  save e st =
  (Js.Return (withId (autoIncrement st) e),
   {| rows := rows st ++ [withId (autoIncrement st) r];
      autoIncrement := autoIncrement st + 1 |}).
Proof.
  intros Hk Hc. unfold Repository.save. now rewrite Hk, Hc.
Qed.

Lemma keyOf_absent (v : option Js.Value) :
  v = None \/ v = Some Js.VNull -> keyOf v = NoKey.
Proof. intros [->| ->]; reflexivity. Qed.

Lemma keyOf_number (i : Z) :
  i <> 0 -> keyOf (Some (Js.VNumber i)) = Key i.
Proof.
  intros H. unfold Repository.keyOf.
  now destruct (Z.eqb_spec i 0).
Qed.

(** C1, amended: for every payload that passes create-group validation,
    carries no [id] (or a null one) and makes a record the store takes
    as it is, [create] saves a new record whose [name], [description] and
    [address] are the payload's and whose [when] is the date made from
    the payload's [when], and returns that record carrying a generated
    identifier: the identifier was in no row before, and afterwards it
    finds the record. *)
Theorem create_persists_valid_payload
    (body : Dto.CreateEventDto) (st : Store) :
  wellFormed st ->
  createPipe (Dto.toObject body) = [] ->
  Dto.id body = None \/ Dto.id body = Some Js.VNull ->
  convert (created body) = Some (created body) ->
  let saved := withId (autoIncrement st) (created body) in
  create body st =
    (Js.Return saved,
     {| rows := rows st ++ [saved];
        autoIncrement := autoIncrement st + 1 |})
  /\ findOne (autoIncrement st) st = (Js.Return None, st)
  /\ fst (findOne (autoIncrement st) (snd (create body st)))
     = Js.Return (Some saved).
Proof.
  intros Hwf Hok Hid Hconv saved.
  pose proof (wellFormed_fresh st Hwf) as Hfresh.
  assert (Hcreate : create body st =
    (Js.Return saved,
     {| rows := rows st ++ [saved];
        autoIncrement := autoIncrement st + 1 |})).
  { rewrite create_cases. rewrite validate_create in Hok.
    destruct (satisfies (Length 5 255) (Dto.address body));
      [|discriminate].
    apply save_insert; [now apply keyOf_absent|exact Hconv]. }
  split; [exact Hcreate|]. split.
  - now apply findOne_find.
  - rewrite Hcreate.
    unfold EventsController.findOne, bind, findOneBy, ret. simpl.
    f_equal. apply find_app_fresh; [exact Hfresh|apply hasId_withId].
Qed.

(** C2: on the code, a payload that violates the rule the DTO declares on
    [name] is not answered with an error.  The rule carries no group, the
    create pipe validates with [groups: ['create']] and leaves it out:
    whenever the address passes its rule, the body goes to [save], and
    no 400 is answered. *)
Theorem create_saves_short_names
    (body : Dto.CreateEventDto) (st : Store) (n : Js.Str) :
  Dto.name body = Some (Js.VString n) ->
  (charCount n < 5)%nat ->
  satisfies (Length 5 255) (Dto.address body) = true ->
  satisfies (Length 5 255) (Dto.name body) = false
  /\ create body st = save (created body) st
  /\ forall msgs,
       fst (create body st) <> Js.Throw (Js.BadRequestException msgs).
Proof.
  intros Hn Hlen Ha. split; [|split].
  - rewrite Hn. unfold validateValue. apply andb_false_iff. left.
    apply Nat.leb_gt. exact Hlen.
  - now rewrite create_cases, Ha.
  - intros msgs. rewrite create_cases, Ha. apply save_not_BadRequest.
Qed.

(** C3: on the code, an update whose body supplies [name] alone does not
    reach the record.  The update pipe selects the decorators tagged
    [update], that is [Length(10, 20)] on [address]; the [IsOptional] that
    [PartialType] puts on [address] carries no group and is not selected;
    the missing [address] fails the length rule and the request is answered
    with 400, the store untouched. *)
Theorem update_name_only_is_rejected (i : Z) (n : Js.Value) (st : Store) :
  update i {| Dto.id := None; Dto.name := Some n;
              Dto.description := None; Dto.when := None;
              Dto.address := None |} st
  = (Js.Throw (Js.BadRequestException
       ["address must be longer than or equal to 10 characters"]), st).
Proof. now rewrite update_cases. Qed.

(** One request that is not a [DELETE] leaves the keys of the rows where
    they are and at most appends rows. *)
Lemma serve_keeps_ids (r : EventsController.Request) (st : Store) :
  EventsController.isDelete r = false ->
  exists added,
    map id (rows (serve r st)) = (map id (rows st) ++ added)%list.
Proof.
  intros Hr. destruct r as [|i|body|i body|i]; simpl in *;
    try discriminate.
  - exists []. now rewrite app_nil_r.
  - exists []. now rewrite app_nil_r.
  - rewrite create_cases.
    destruct (satisfies (Length 5 255) (Dto.address body)).
    + apply save_keeps_ids.
    + exists []. simpl. now rewrite app_nil_r.
  - rewrite update_cases.
    destruct (satisfies (Length 10 20) (Dto.address body));
      [|exists []; simpl; now rewrite app_nil_r].
    destruct (List.find (hasId i) (rows st)) as [e|].
    + apply save_keeps_ids.
    + destruct (Js.truthy (Dto.when body)).
      * apply save_keeps_ids.
      * exists []. simpl. now rewrite app_nil_r.
Qed.

Lemma serve_delete_filters (i : Z) (st : Store) :
  exists keep,
    rows (serve (EventsController.DELETE i) st) = filter keep (rows st).
Proof.
  simpl. rewrite remove_cases.
  destruct (List.find (hasId i) (rows st)) as [e|]; simpl.
  - now eexists.
  - exists (fun _ => true).
    generalize (rows st) as rs.
    induction rs as [|r rs IH]; simpl; [reflexivity|]. now rewrite <- IH.
Qed.

(** [update] of a record that exists, with no [id] in the body, when the
    engine takes the merged object as it is: the merged object replaces
    the row. *)
Lemma update_existing (i : Z) (body : Dto.UpdateEventDto) (st : Store)
    (e : Event) :
  satisfies (Length 10 20) (Dto.address body) = true ->
  List.find (hasId i) (rows st) = Some e ->
  Dto.id body = None ->
  i <> 0 ->
  convert (merged e body) = Some (merged e body) ->
  update i body st =
  (Js.Return (merged e body),
   {| rows := map (fun r => if hasId i r then merged e body else r)
                  (rows st);
      autoIncrement := autoIncrement st |}).
Proof.
  intros Hv Hf Hno Hi Hconv.
  destruct (find_hasId _ _ _ Hf) as [_ Hid].
  rewrite update_cases, Hv, Hf.
  assert (Hover : overlay i e (merged e body) = merged e body).
  { unfold overlay. simpl. rewrite !spread_same, Hno. simpl.
    now rewrite Hid. }
  assert (Hwith : withId i (merged e body) = merged e body).
  { unfold withId. simpl. rewrite Hno. simpl. now rewrite Hid. }
  unfold Repository.save. simpl. rewrite Hno. simpl.
  rewrite Hid, (keyOf_number i Hi), Hf.
  rewrite Hno in Hover. simpl in Hover. rewrite Hid in Hover.
  rewrite Hover.
  rewrite Hno in Hconv. simpl in Hconv. rewrite Hid in Hconv.
  rewrite Hconv.
  rewrite Hno in Hwith. simpl in Hwith. rewrite Hid in Hwith.
  now rewrite Hwith.
Qed.

Lemma serve_wellFormed (r : EventsController.Request) (st : Store) :
  wellFormed st -> wellFormed (serve r st).
Proof.
  intros Hwf. destruct r as [|i|body|i body|i]; simpl; try exact Hwf.
  - rewrite create_cases.
    destruct (satisfies (Length 5 255) (Dto.address body)); [|exact Hwf].
    now apply save_wellFormed.
  - rewrite update_cases.
    destruct (satisfies (Length 10 20) (Dto.address body)); [|exact Hwf].
    destruct (List.find (hasId i) (rows st)) as [e|].
    + now apply save_wellFormed.
    + destruct (Js.truthy (Dto.when body)); [|exact Hwf].
      now apply save_wellFormed.
  - rewrite remove_cases.
    destruct (List.find (hasId i) (rows st)); [|exact Hwf].
    unfold wellFormed in *. simpl.
    apply Forall_forall. intros r Hr. apply filter_In in Hr.
    rewrite Forall_forall in Hwf. now apply Hwf.
Qed.

(** C4: the identifier of a record never changes.  Along any sequence of
    requests without a [DELETE] (partial updates in particular, whatever
    their bodies hold) the keys of the rows stay what and where they are,
    new rows only being appended; a [DELETE] drops rows and alters none.
    An update of an existing record whose body passes the pipe and has no
    [id], the engine taking the merged record as it is, returns and stores
    a record with the same identifier in which [name], [description] and
    [address] are the body's where the body has them, and [when] the date
    made from the body's when that is truthy. *)
Theorem identifier_is_immutable :
  (forall (rs : list EventsController.Request) (st : Store),
      forallb (fun r => negb (EventsController.isDelete r)) rs = true ->
      exists added,
        map id (rows (serveAll rs st)) = (map id (rows st) ++ added)%list)
  /\ (forall (i : Z) (st : Store),
      exists keep,
        rows (serve (EventsController.DELETE i) st)
        = filter keep (rows st))
  /\ (forall (i : Z) (body : Dto.UpdateEventDto) (st : Store) (e : Event),
      findOne i st = (Js.Return (Some e), st) ->
      updatePipe (Dto.toObject body) = [] ->
      Dto.id body = None ->
      i <> 0 ->
      convert (merged e body) = Some (merged e body) ->
      exists e' st',
        update i body st = (Js.Return e', st')
        /\ findOne i st' = (Js.Return (Some e'), st')
        /\ id e' = id e
        /\ name e' = Js.spread (name e) (Dto.name body)
        /\ description e'
           = Js.spread (description e) (Dto.description body)
        /\ address e' = Js.spread (address e) (Dto.address body)
        /\ when e' = (if Js.truthy (Dto.when body)
                      then newDate (Dto.when body) else when e)).
Proof.
  split; [|split].
  - intros rs. induction rs as [|r rs IH]; intros st Hrs; simpl in *.
    + exists []. now rewrite app_nil_r.
    + apply andb_true_iff in Hrs. destruct Hrs as [Hr Hrs].
      apply negb_true_iff in Hr.
      destruct (serve_keeps_ids r st Hr) as [a1 H1].
      destruct (IH (serve r st) Hrs) as [a2 H2].
      exists (a1 ++ a2)%list.
      unfold EventsController.serveAll in *. simpl.
      now rewrite H2, H1, app_assoc.
  - exact serve_delete_filters.
  - intros i body st e Hfind Hok Hno Hi Hconv.
    apply findOne_find in Hfind.
    destruct (find_hasId _ _ _ Hfind) as [_ Hid].
    assert (Hv : satisfies (Length 10 20) (Dto.address body) = true).
    { rewrite validate_update in Hok.
      now destruct (satisfies (Length 10 20) (Dto.address body)). }
    eexists. eexists.
    split; [exact (update_existing i body st e Hv Hfind Hno Hi Hconv)|].
    split.
    + apply findOne_find. simpl.
      apply (find_after_replace i (rows st) e); [exact Hfind|].
      apply hasId_id. simpl. now rewrite Hno.
    + simpl. rewrite Hno. repeat split; reflexivity.
Qed.

(** C5: for every id whose record exists, [remove] answers 204 with no
    content, and a [findOne] for that id afterwards yields [null]. *)
Theorem remove_then_findOne (i : Z) (st : Store) (e : Event) :
  findOne i st = (Js.Return (Some e), st) ->
  exists st',
    remove i st = (Js.Return tt, st')
    /\ Js.statusCode EventsController.remove_HttpCode (fst (remove i st))
       = 204
    /\ findOne i st' = (Js.Return None, st').
Proof.
  intros Hfind. apply findOne_find in Hfind.
  rewrite remove_cases, Hfind.
  eexists. split; [reflexivity|]. split; [reflexivity|].
  apply findOne_find. simpl. apply find_after_delete.
Qed.

(** C6: [address] is validated with bounds that depend on the operation,
    and with nothing else.  [create] answers 400 exactly when the address
    is not a string of 5 to 255 characters, [update] exactly when it is
    not a string of 10 to 20 characters, whatever the body holds besides;
    so an address of 5 to 9 characters, or of 21 to 255, passes [create]
    and is refused by [update]. *)
Theorem address_bounds_depend_on_operation
    (body : Dto.CreateEventDto) (st : Store) :
  ((exists a, Dto.address body = Some (Js.VString a)
              /\ (5 <= charCount a <= 255)%nat) ->
   forall msgs,
     fst (create body st) <> Js.Throw (Js.BadRequestException msgs))
  /\ (~ (exists a, Dto.address body = Some (Js.VString a)
                   /\ (5 <= charCount a <= 255)%nat) ->
      snd (create body st) = st
      /\ Js.statusCode EventsController.create_HttpCode
           (fst (create body st)) = 400)
  /\ ((exists a, Dto.address body = Some (Js.VString a)
                 /\ (10 <= charCount a <= 20)%nat) ->
      forall i msgs,
        fst (update i body st) <> Js.Throw (Js.BadRequestException msgs))
  /\ (~ (exists a, Dto.address body = Some (Js.VString a)
                   /\ (10 <= charCount a <= 20)%nat) ->
      forall i,
        snd (update i body st) = st
        /\ Js.statusCode EventsController.update_HttpCode
             (fst (update i body st)) = 400).
Proof.
  split; [|split; [|split]].
  - intros H msgs. apply (satisfies_Length isISO8601) in H.
    rewrite create_cases, H. apply save_not_BadRequest.
  - intros H. rewrite create_cases.
    destruct (satisfies (Length 5 255) (Dto.address body)) eqn:Hv.
    + exfalso. apply H. now apply (satisfies_Length isISO8601) in Hv.
    + split; reflexivity.
  - intros H i msgs. apply (satisfies_Length isISO8601) in H.
    rewrite update_cases, H.
    destruct (List.find (hasId i) (rows st)).
    + apply save_not_BadRequest.
    + destruct (Js.truthy (Dto.when body));
        [apply save_not_BadRequest|discriminate].
  - intros H i. rewrite update_cases.
    destruct (satisfies (Length 10 20) (Dto.address body)) eqn:Hv.
    + exfalso. apply H. now apply (satisfies_Length isISO8601) in Hv.
    + split; reflexivity.
Qed.

(** The README's controller validates with [@Body(ValidationPipe)], no
    groups: every decorator is selected, and the README's example body is
    answered with the message configured on [name] among others. *)
Lemma ungrouped_pipe_reports_name :
  In "name must have a length between [5,25]"
     (Nest.flattenValidationErrors
        (validate isISO8601 selectors (Nest.pipeOptions [])
           Dto.CreateEventDto_metadata (Dto.toObject Sample.readmeBody))).
Proof.
  unfold ClassValidator.validate.
  change (getTargetValidationMetadatas (Nest.pipeOptions [])
            Dto.CreateEventDto_metadata)
    with Dto.CreateEventDto_metadata.
  change (propertyNames Dto.CreateEventDto_metadata [])
    with ["name"; "description"; "when"; "address"].
  simpl flat_map. unfold Nest.flattenValidationErrors.
  rewrite flat_map_app. apply in_or_app. left.
  unfold performValidations.
  change (metadatasOf "name" Dto.CreateEventDto_metadata)
    with [ {| propertyName := "name"; type := Length 5 255;
              message := Some "name must have a length between [5,25]";
              groups := []; always := None |} ].
  change (Dto.toObject Sample.readmeBody "name") with (Sample.text "a").
  assert (E : satisfies (Length 5 255) (Sample.text "a") = false).
  { now destruct selectors. }
  unfold conditionalValidations, customValidations.
  cbn -[validateValue Sample.text]. rewrite E.
  cbn. now left.
Qed.

(** C7: on the code, the README's example body is not answered with 400.
    The name rule carries no group, the create pipe validates with
    [groups: ['create']] and leaves it out, the five characters of the
    address satisfy the one rule that is selected, and the body goes to
    [save]: when the engine takes the record, it is saved under a
    generated identifier and the answer is 201 with the saved record. *)
Theorem create_accepts_readme_body (st : Store) :
  let object := {| id := None;
                   name := Sample.text "a";
                   description := Sample.text "hi";
                   when := Date_parse (Js.ofString "2022-02-02");
                   address := Sample.text "22 av" |} in
  create Sample.readmeBody st = save object st
  /\ (forall msgs,
        fst (create Sample.readmeBody st)
        <> Js.Throw (Js.BadRequestException msgs))
  /\ (forall row,
        convert object = Some row ->
        create Sample.readmeBody st =
          (Js.Return (withId (autoIncrement st) object),
           {| rows := rows st ++ [withId (autoIncrement st) row];
              autoIncrement := autoIncrement st + 1 |})
        /\ Js.statusCode EventsController.create_HttpCode
             (fst (create Sample.readmeBody st)) = 201).
Proof.
  intros object.
  assert (Ha : satisfies (Length 5 255) (Dto.address Sample.readmeBody)
               = true) by (now destruct selectors).
  assert (Hsave : create Sample.readmeBody st = save object st)
    by (now rewrite create_cases, Ha).
  split; [exact Hsave|]. split.
  - intros msgs. rewrite Hsave. apply save_not_BadRequest.
  - intros row Hrow. rewrite Hsave.
    rewrite (save_insert object row st eq_refl Hrow). split; reflexivity.
Qed.

(** C8: for every id, [findOne] returns the record with that id when the
    store has one and [null] when it has none; it never throws, and it
    leaves the store as it is. *)
Theorem findOne_returns_record_or_null (i : Z) (st : Store) :
  exists r,
    findOne i st = (Js.Return r, st)
    /\ match r with
       | Some e => In e (rows st) /\ id e = Some (Js.VNumber i)
       | None => forall e, In e (rows st) -> id e <> Some (Js.VNumber i)
       end.
Proof.
  exists (List.find (hasId i) (rows st)). split; [reflexivity|].
  destruct (List.find (hasId i) (rows st)) as [e|] eqn:Hf.
  - now apply find_hasId.
  - now apply find_hasId_none.
Qed.

(** C9, amended: for every id that no record has and every body that
    passes update-group validation, carries a truthy [when] and no [id]
    (or a null one), and makes a record the store takes as it is,
    [update] throws nothing: it saves a new record made of the body's
    fields alone, under a newly generated identifier, and returns it. *)
Theorem update_missing_record_inserts
    (i : Z) (body : Dto.UpdateEventDto) (st : Store) :
  wellFormed st ->
  findOne i st = (Js.Return None, st) ->
  updatePipe (Dto.toObject body) = [] ->
  Js.truthy (Dto.when body) = true ->
  Dto.id body = None \/ Dto.id body = Some Js.VNull ->
  convert (created body) = Some (created body) ->
  let saved := withId (autoIncrement st) (created body) in
  update i body st =
    (Js.Return saved,
     {| rows := rows st ++ [saved];
        autoIncrement := autoIncrement st + 1 |})
  /\ findOne (autoIncrement st) st = (Js.Return None, st).
Proof.
  intros Hwf Hfind Hok T Hid Hconv saved.
  apply findOne_find in Hfind.
  split.
  - rewrite update_cases, Hfind, T. rewrite validate_update in Hok.
    destruct (satisfies (Length 10 20) (Dto.address body));
      [|discriminate].
    apply save_insert; [now apply keyOf_absent|exact Hconv].
  - apply findOne_find. now apply wellFormed_fresh.
Qed.

(** C10: on the code, [create] enforces no upper bound on [name].  A body
    whose [name] has more than 255 characters fails the [Length(5, 255)]
    the DTO declares on it and is not answered with 400: the rule carries
    no group and the create pipe leaves it out; whenever the address
    passes its rule, the body goes to [save]. *)
Theorem create_saves_long_names
    (body : Dto.CreateEventDto) (st : Store) (n : Js.Str) :
  Dto.name body = Some (Js.VString n) ->
  (255 < charCount n)%nat ->
  satisfies (Length 5 255) (Dto.address body) = true ->
  satisfies (Length 5 255) (Dto.name body) = false
  /\ create body st = save (created body) st
  /\ forall msgs,
       fst (create body st) <> Js.Throw (Js.BadRequestException msgs).
Proof.
  intros Hn Hlen Ha. split; [|split].
  - rewrite Hn. unfold validateValue. apply andb_false_iff. right.
    apply Nat.leb_gt. exact Hlen.
  - now rewrite create_cases, Ha.
  - intros msgs. rewrite create_cases, Ha. apply save_not_BadRequest.
Qed.

(** ** Further properties of the controller *)

Local Abbreviation target := (EventsController.target otherKey).

(** X2: a handler that throws has written nothing: whenever [create],
    [update] or [remove] answers with an exception the store is the one it
    started from. *)
Theorem throwing_handlers_write_nothing :
  (forall body st e,
      fst (create body st) = Js.Throw e -> snd (create body st) = st)
  /\ (forall i body st e,
      fst (update i body st) = Js.Throw e -> snd (update i body st) = st)
  /\ (forall i st e,
      fst (remove i st) = Js.Throw e -> snd (remove i st) = st).
Proof.
  split; [|split].
  - intros body st e. rewrite create_cases.
    destruct (satisfies (Length 5 255) (Dto.address body));
      [|reflexivity].
    apply save_throws_unchanged.
  - intros i body st e. rewrite update_cases.
    destruct (satisfies (Length 10 20) (Dto.address body));
      [|reflexivity].
    destruct (List.find (hasId i) (rows st));
      [apply save_throws_unchanged|].
    destruct (Js.truthy (Dto.when body)); [|reflexivity].
    apply save_throws_unchanged.
  - intros i st e. rewrite remove_cases.
    destruct (List.find (hasId i) (rows st)); [discriminate|reflexivity].
Qed.

(** X4: [remove] of an id that no record has throws [MustBeEntityError]
    out of [repository.remove(null)] and leaves the store as it is; so
    does a second [remove] of an id whose record the first one deleted. *)
Theorem remove_without_record :
  (forall i st,
      findOne i st = (Js.Return None, st) ->
      remove i st = (Js.Throw Js.MustBeEntityError, st))
  /\ (forall i st e,
      findOne i st = (Js.Return (Some e), st) ->
      fst (remove i st) = Js.Return tt
      /\ remove i (snd (remove i st))
         = (Js.Throw Js.MustBeEntityError, snd (remove i st))).
Proof.
  split.
  - intros i st Hf. apply findOne_find in Hf.
    now rewrite remove_cases, Hf.
  - intros i st e Hf. apply findOne_find in Hf.
    rewrite !remove_cases, Hf. simpl.
    now rewrite find_after_delete.
Qed.

(** X5: a request writes at most one record: the one its body's [id]
    names, or for an update whose body has no [id] (and for a delete) the
    one of the route.  Every other record that [findOne] finds is found
    unchanged after the request. *)
Theorem other_records_are_untouched
    (r : EventsController.Request) (st : Store) (j : Z) (e : Event) :
  target r <> Some j ->
  findOne j st = (Js.Return (Some e), st) ->
  fst (findOne j (serve r st)) = Js.Return (Some e).
Proof.
  intros Ht Hf. apply findOne_find in Hf.
  unfold EventsController.findOne, bind, findOneBy, ret. simpl. f_equal.
  destruct r as [|i|body|i body|i]; simpl in *; try exact Hf.
  - rewrite create_cases.
    destruct (satisfies (Length 5 255) (Dto.address body)); [|exact Hf].
    apply save_other_rows; [|exact Hf]. simpl.
    intros Hk. rewrite Hk in Ht. now apply Ht.
  - rewrite update_cases.
    destruct (satisfies (Length 10 20) (Dto.address body)); [|exact Hf].
    destruct (List.find (hasId i) (rows st)) as [e0|] eqn:Hi.
    + apply save_other_rows; [|exact Hf]. simpl.
      destruct (find_hasId _ _ _ Hi) as [_ Hid]. rewrite Hid.
      intros Hk. rewrite Hk in Ht. now apply Ht.
    + destruct (Js.truthy (Dto.when body)); [|exact Hf].
      apply save_other_rows; [|exact Hf]. simpl.
      intros Hk. destruct (Dto.id body) as [v|]; simpl in *.
      * rewrite Hk in Ht. now apply Ht.
      * discriminate Hk.
  - rewrite remove_cases.
    destruct (List.find (hasId i) (rows st)); simpl; [|exact Hf].
    rewrite find_filter_other; [exact Hf|congruence].
Qed.

(** X6: an [update] of a record that exists, its body without [id], is
    idempotent when the engine takes the merged record as it is:
    repeating the request on the store the first one left gives the same
    answer and leaves that store as it is. *)
Theorem update_existing_is_idempotent
    (i : Z) (body : Dto.UpdateEventDto) (st : Store) (e : Event) :
  findOne i st = (Js.Return (Some e), st) ->
  Dto.id body = None ->
  i <> 0 ->
  convert (merged e body) = Some (merged e body) ->
  update i body (snd (update i body st)) = update i body st.
Proof.
  intros Hf Hno Hi Hconv. apply findOne_find in Hf.
  destruct (find_hasId _ _ _ Hf) as [_ Hid].
  destruct (satisfies (Length 10 20) (Dto.address body)) eqn:Hv.
  - assert (Hm : hasId i (merged e body) = true)
      by (apply hasId_id; simpl; now rewrite Hno).
    assert (Hsame : merged (merged e body) body = merged e body).
    { simpl. f_equal.
      - now rewrite Hno.
      - apply spread_spread.
      - apply spread_spread.
      - now destruct (Js.truthy (Dto.when body)).
      - apply spread_spread. }
    rewrite (update_existing i body st e Hv Hf Hno Hi Hconv).
    set (st' := {| rows := map (fun r => if hasId i r then merged e body
                                         else r) (rows st);
                   autoIncrement := autoIncrement st |}).
    assert (Hf' : List.find (hasId i) (rows st') = Some (merged e body))
      by exact (find_after_replace i (rows st) e _ Hf Hm).
    assert (Hconv' : convert (merged (merged e body) body)
                     = Some (merged (merged e body) body))
      by (rewrite Hsame; exact Hconv).
    change (snd (Js.Return (merged e body), st')) with st'.
    rewrite (update_existing i body st' (merged e body) Hv Hf' Hno Hi
               Hconv').
    rewrite Hsame. subst st'. simpl.
    now rewrite (replace_twice i (merged e body) (rows st) Hm).
  - rewrite (update_cases i body st), Hv. simpl.
    now rewrite update_cases, Hv.
Qed.

Lemma serve_NoDup (r : EventsController.Request) (st : Store) :
  wellFormed st -> NoDup (map id (rows st)) ->
  NoDup (map id (rows (serve r st))).
Proof.
  intros Hwf Hnd. destruct r as [|i|body|i body|i]; simpl; try exact Hnd.
  - rewrite create_cases.
    destruct (satisfies (Length 5 255) (Dto.address body)); [|exact Hnd].
    now apply save_NoDup.
  - rewrite update_cases.
    destruct (satisfies (Length 10 20) (Dto.address body)); [|exact Hnd].
    destruct (List.find (hasId i) (rows st)) as [e|].
    + now apply save_NoDup.
    + destruct (Js.truthy (Dto.when body)); [|exact Hnd].
      now apply save_NoDup.
  - rewrite remove_cases.
    destruct (List.find (hasId i) (rows st)); [|exact Hnd].
    now apply NoDup_ids_filter.
Qed.

(** X7: two invariants of the store hold along every sequence of
    requests: every record has an identifier below the counter, and no two
    records share an identifier.  In such a store [findOne] returns a
    record exactly for its own identifier. *)
Theorem store_invariants
    (rs : list EventsController.Request) (st : Store) :
  wellFormed st ->
  NoDup (map id (rows st)) ->
  wellFormed (serveAll rs st)
  /\ NoDup (map id (rows (serveAll rs st)))
  /\ (forall i e,
        In e (rows (serveAll rs st)) -> id e = Some (Js.VNumber i) ->
        findOne i (serveAll rs st)
        = (Js.Return (Some e), serveAll rs st)).
Proof.
  revert st. induction rs as [|r rs IH]; intros st Hwf Hnd.
  - simpl. split; [exact Hwf|]. split; [exact Hnd|].
    intros i e Hin Hid. apply findOne_find. now apply find_unique.
  - apply (IH (serve r st)).
    + now apply serve_wellFormed.
    + now apply serve_NoDup.
Qed.

(** X10: validated without groups, as by [@Body(ValidationPipe)] or a
    global [new ValidationPipe()], a [CreateEventDto] passes exactly when
    [name] and [description] have 5 to 255 characters, [when] is an ISO
    8601 date string and [address] has 10 to 20 characters: both length
    rules of [address] apply, the one tagged [update] included. *)
Theorem CreateEventDto_without_groups (body : Dto.CreateEventDto) :
  validate isISO8601 selectors (Nest.pipeOptions [])
    Dto.CreateEventDto_metadata (Dto.toObject body) = []
  <->
  satisfies (Length 5 255) (Dto.name body) = true
  /\ satisfies (Length 5 255) (Dto.description body) = true
  /\ satisfies IsDateString (Dto.when body) = true
  /\ satisfies (Length 10 20) (Dto.address body) = true.
Proof.
  rewrite validate_nil.
  change (getTargetValidationMetadatas (Nest.pipeOptions [])
            Dto.CreateEventDto_metadata)
    with Dto.CreateEventDto_metadata.
  destruct body as [i n d w a].
  cbn -[validateValue]. rewrite !andb_true_iff.
  split.
  - intros [Hn [Hd [_ [Hw [Ha _]]]]]. tauto.
  - intros [Hn [Hd [Hw Ha]]].
    pose proof (satisfies_Length_IsString isISO8601 selectors _ _ _ Hd).
    pose proof (satisfies_Length_wider isISO8601 selectors _ Ha).
    tauto.
Qed.

(** X11: validated without groups, an [UpdateEventDto] passes exactly when
    every property that the body supplies satisfies the rules of
    [CreateEventDto]: the [IsOptional] of [PartialType] excuses a property
    that is missing or null and nothing else. *)
Theorem UpdateEventDto_without_groups (body : Dto.UpdateEventDto) :
  validate isISO8601 selectors (Nest.pipeOptions [])
    Dto.UpdateEventDto_metadata (Dto.toObject body) = []
  <->
  (Dto.name body = None \/ Dto.name body = Some Js.VNull
   \/ satisfies (Length 5 255) (Dto.name body) = true)
  /\ (Dto.description body = None \/ Dto.description body = Some Js.VNull
      \/ satisfies (Length 5 255) (Dto.description body) = true)
  /\ (Dto.when body = None \/ Dto.when body = Some Js.VNull
      \/ satisfies IsDateString (Dto.when body) = true)
  /\ (Dto.address body = None \/ Dto.address body = Some Js.VNull
      \/ satisfies (Length 10 20) (Dto.address body) = true).
Proof.
  rewrite validate_nil.
  change (getTargetValidationMetadatas (Nest.pipeOptions [])
            Dto.UpdateEventDto_metadata)
    with Dto.UpdateEventDto_metadata.
  destruct body as [i n d w a].
  cbn -[validateValue]. rewrite !andb_true_r, !andb_diag.
  rewrite !andb_true_iff.
  rewrite !(optional_excuses isISO8601 selectors).
  split.
  - intros [Hn [Hd [_ [Hw [Ha _]]]]]. tauto.
  - intros [Hn [Hd [Hw Ha]]].
    assert (Hd' : d = None \/ d = Some Js.VNull
                  \/ satisfies IsString d = true).
    { destruct Hd as [Hd|[Hd|Hd]]; [tauto|tauto|].
      right. right.
      exact (satisfies_Length_IsString isISO8601 selectors _ _ _ Hd). }
    assert (Ha' : a = None \/ a = Some Js.VNull
                  \/ satisfies (Length 5 255) a = true).
    { destruct Ha as [Ha|[Ha|Ha]]; [tauto|tauto|].
      right. right.
      exact (satisfies_Length_wider isISO8601 selectors _ Ha). }
    tauto.
Qed.

(** X12: the one message of a 400 answer.  A missing address is reported
    as too short.  An address that is a string and fails the rule is
    reported by its [length], the number of its code units: as too short
    when that is below the lower bound, as too long when it is above the
    upper bound, and with both bounds when it is within them while the
    characters counted are not.  The bounds are 5 and 255 on [create], 10
    and 20 on [update]. *)
Theorem address_messages (body : Dto.CreateEventDto) (st : Store) :
  (Dto.address body = None ->
   forall i,
   create body st =
     (Js.Throw (Js.BadRequestException
        ["address must be longer than or equal to 5 characters"]), st)
   /\ update i body st =
     (Js.Throw (Js.BadRequestException
        ["address must be longer than or equal to 10 characters"]), st))
  /\ (forall a,
      Dto.address body = Some (Js.VString a) ->
      ~ (5 <= charCount a <= 255)%nat ->
      create body st =
        (Js.Throw (Js.BadRequestException
           [if Nat.ltb (Js.length a) 5
            then "address must be longer than or equal to 5 characters"
            else if Nat.ltb 255 (Js.length a)
            then "address must be shorter than or equal to 255 characters"
            else "address must be longer than or equal to 5 and shorter than or equal to 255 characters"]),
         st))
  /\ (forall a i,
      Dto.address body = Some (Js.VString a) ->
      ~ (10 <= charCount a <= 20)%nat ->
      update i body st =
        (Js.Throw (Js.BadRequestException
           [if Nat.ltb (Js.length a) 10
            then "address must be longer than or equal to 10 characters"
            else if Nat.ltb 20 (Js.length a)
            then "address must be shorter than or equal to 20 characters"
            else "address must be longer than or equal to 10 and shorter than or equal to 20 characters"]),
         st)).
Proof.
  split; [|split].
  - intros Ha i. rewrite create_cases, update_cases, Ha.
    split; reflexivity.
  - intros a Ha Hout. rewrite create_cases, Ha.
    assert (Hv : satisfies (Length 5 255) (Some (Js.VString a)) = false).
    { destruct (satisfies (Length 5 255) (Some (Js.VString a))) eqn:E;
        [|reflexivity].
      apply (satisfies_Length isISO8601) in E.
      destruct E as [s [Es Hs]]. injection Es as <-. contradiction. }
    rewrite Hv. unfold defaultMessage, lengthBelow, lengthAbove.
    destruct a as [|c a']; [reflexivity|].
    cbn [Js.truthy negb orb].
    destruct (Nat.ltb (Js.length (c :: a')) 5); [reflexivity|].
    destruct (Nat.ltb 255 (Js.length (c :: a'))); reflexivity.
  - intros a i Ha Hout. rewrite update_cases, Ha.
    assert (Hv : satisfies (Length 10 20) (Some (Js.VString a)) = false).
    { destruct (satisfies (Length 10 20) (Some (Js.VString a))) eqn:E;
        [|reflexivity].
      apply (satisfies_Length isISO8601) in E.
      destruct E as [s [Es Hs]]. injection Es as <-. contradiction. }
    rewrite Hv. unfold defaultMessage, lengthBelow, lengthAbove.
    destruct a as [|c a']; [reflexivity|].
    cbn [Js.truthy negb orb].
    destruct (Nat.ltb (Js.length (c :: a')) 10); [reflexivity|].
    destruct (Nat.ltb 20 (Js.length (c :: a'))); reflexivity.
Qed.


End Controller.

(** ** The ordered query *)

Lemma insertById_In (r x : Event) (rs : list Event) :
  In x (insertById r rs) <-> x = r \/ In x rs.
Proof.
  induction rs as [|y ys IH]; simpl.
  - intuition.
  - destruct (idGe r y); simpl; [intuition|].
    rewrite IH. intuition.
Qed.

Lemma orderByIdDesc_In (x : Event) (rs : list Event) :
  In x (orderByIdDesc rs) <-> In x rs.
Proof.
  induction rs as [|r rs IH]; simpl; [tauto|].
  rewrite insertById_In, IH. intuition.
Qed.

Lemma idGe_total (a b : Event) : idGe a b = false -> idGe b a = true.
Proof.
  unfold idGe.
  destruct (keyNumber a), (keyNumber b); try discriminate; trivial.
  rewrite Z.leb_gt, Z.leb_le. lia.
Qed.

Lemma idGe_trans (a b c : Event) :
  idGe a b = true -> idGe b c = true -> idGe a c = true.
Proof.
  unfold idGe.
  destruct (keyNumber a), (keyNumber b), (keyNumber c);
    try discriminate; trivial.
  rewrite !Z.leb_le. lia.
Qed.

Lemma insertById_sorted (r : Event) (rs : list Event) :
  StronglySorted (fun a b => idGe a b = true) rs ->
  StronglySorted (fun a b => idGe a b = true) (insertById r rs).
Proof.
  induction rs as [|x xs IH]; simpl; intros Hs.
  - repeat constructor.
  - inversion Hs as [|? ? Hxs Hall]; subst.
    destruct (idGe r x) eqn:E.
    + constructor; [exact Hs|]. constructor; [exact E|].
      eapply Forall_impl; [|exact Hall]. simpl.
      intros y Hy. exact (idGe_trans r x y E Hy).
    + constructor; [now apply IH|].
      apply Forall_forall. intros y Hy. apply insertById_In in Hy.
      destruct Hy as [->|Hy]; [now apply idGe_total|].
      rewrite Forall_forall in Hall. now apply Hall.
Qed.

Lemma orderByIdDesc_sorted (rs : list Event) :
  StronglySorted (fun a b => idGe a b = true) (orderByIdDesc rs).
Proof.
  induction rs as [|r rs IH]; simpl; [constructor|].
  now apply insertById_sorted.
Qed.

Lemma sorted_firstn {A : Type} (R : A -> A -> Prop) (n : nat) (l : list A) :
  StronglySorted R l -> StronglySorted R (firstn n l).
Proof.
  revert n. induction l as [|x xs IH]; intros [|n] Hs; simpl;
    try constructor.
  - inversion Hs; subst. now apply IH.
  - inversion Hs as [|? ? _ Hall]; subst.
    apply Forall_forall. intros y Hy.
    rewrite Forall_forall in Hall. apply Hall.
    rewrite <- (firstn_skipn n xs). apply in_or_app. now left.
Qed.

Lemma sorted_firstn_skipn {A : Type} (R : A -> A -> Prop) (n : nat)
    (l : list A) (p x : A) :
  StronglySorted R l -> In p (firstn n l) -> In x (skipn n l) -> R p x.
Proof.
  revert n. induction l as [|y ys IH]; intros n Hs.
  - destruct n; simpl; intros [].
  - destruct n as [|n]; simpl; [intros []|].
    inversion Hs as [|? ? Hys Hall]; subst.
    intros [->|Hp] Hx.
    + rewrite Forall_forall in Hall. apply Hall.
      rewrite <- (firstn_skipn n ys). apply in_or_app. now right.
    + now apply (IH n).
Qed.

Section Practice.

Variable Date_parse : Js.Str -> Js.Date.
Variable Like : string -> Js.Value -> bool.

Local Abbreviation practiceQueries :=
  (EventsController.practiceQueries Date_parse Like).
Local Abbreviation practiceWhere :=
  (EventsController.practiceWhere Date_parse Like).

(** X9: [practiceQueries] answers with the [id] and [name] of at most two
    records, each a record of the store that satisfies the [where], in
    descending order of [id]; a record that satisfies the [where] and is
    left out has an [id] no larger than those of the two returned; the
    store is left as it is. *)
Theorem practiceQueries_returns_the_top_two (st : Store) :
  exists picked,
    practiceQueries st
      = (Js.Return (map (fun r => (id r, name r)) picked), st)
    /\ (List.length picked <= 2)%nat
    /\ (forall r, In r picked ->
          In r (rows st) /\ practiceWhere r = true)
    /\ StronglySorted (fun a b => idGe a b = true) picked
    /\ (forall r, In r (rows st) -> practiceWhere r = true ->
          In r picked
          \/ (List.length picked = 2%nat
              /\ forall p, In p picked -> idGe p r = true)).
Proof.
  set (matching := orderByIdDesc (filter practiceWhere (rows st))).
  exists (firstn 2 matching). split; [reflexivity|].
  split; [apply firstn_le_length|]. split; [|split].
  - intros r Hr.
    assert (Hin : In r matching).
    { rewrite <- (firstn_skipn 2 matching). apply in_or_app. now left. }
    apply orderByIdDesc_In, filter_In in Hin. exact Hin.
  - apply sorted_firstn, orderByIdDesc_sorted.
  - intros r Hin Hw.
    assert (Hr : In r matching)
      by (apply orderByIdDesc_In, filter_In; now split).
    rewrite <- (firstn_skipn 2 matching) in Hr.
    apply in_app_or in Hr. destruct Hr as [Hr|Hr]; [now left|].
    right. split.
    + destruct matching as [|a [|b rest]]; try (now destruct Hr).
      reflexivity.
    + intros p Hp.
      exact (sorted_firstn_skipn _ 2 matching p r
               (orderByIdDesc_sorted _) Hp Hr).
Qed.

End Practice.

(** ** The theorems at work on the sample data *)

Lemma oneEvent_wellFormed : wellFormed Sample.oneEvent.
Proof.
  constructor; [|constructor].
  exists 1. split; reflexivity.
Qed.

Lemma twoEvents_wellFormed : wellFormed Sample.twoEvents.
Proof.
  constructor; [|constructor; [|constructor]].
  - exists 1. split; reflexivity.
  - exists 2. split; reflexivity.
Qed.

Lemma twoEvents_NoDup : NoDup (map id (rows Sample.twoEvents)).
Proof.
  simpl. constructor.
  - intros [H|[]]. discriminate.
  - constructor; [intros []|constructor].
Qed.

Lemma create_persists_valid_payload_witness :
  wellFormed Sample.oneEvent
  /\ Sample.createPipe (Dto.toObject Sample.goodBody) = []
  /\ Sample.create Sample.goodBody Sample.oneEvent
     = (Js.Return
          {| id := Some (Js.VNumber 2);
             name := Sample.text "Team meeting";
             description := Sample.text "Weekly planning";
             when := Some 1643760000000;
             address := Sample.text "22 Main Avenue" |},
        {| rows := [Sample.meeting;
                    {| id := Some (Js.VNumber 2);
                       name := Sample.text "Team meeting";
                       description := Sample.text "Weekly planning";
                       when := Some 1643760000000;
                       address := Sample.text "22 Main Avenue" |}];
           autoIncrement := 3 |}).
Proof.
  pose proof oneEvent_wellFormed as Hwf.
  assert (Hok : Sample.createPipe (Dto.toObject Sample.goodBody) = [])
    by reflexivity.
  exact (conj Hwf (conj Hok
    (proj1 (create_persists_valid_payload Sample.isISO8601
              Sample.selectors Sample.Date_parse Sample.convert
              Sample.otherKey Sample.goodBody Sample.oneEvent
              Hwf Hok (or_introl eq_refl) eq_refl)))).
Defined.

(** C1 as stated fails: the body below passes create-group validation and
    carries the [id] of the record the store holds; [create] makes no new
    record and generates no identifier: it writes the body over that
    record and returns it under the body's [id]. *)
Lemma create_with_id_counterexample :
  let body := Sample.bodyWith (Some (Js.VNumber 1))
                (Sample.text "12 Long Street") in
  let written := {| id := Some (Js.VNumber 1);
                    name := Sample.text "Retrospective";
                    description := Sample.text "Monthly review";
                    when := Some 1682899200000;
                    address := Sample.text "12 Long Street" |} in
  Sample.createPipe (Dto.toObject body) = []
  /\ EventsController.findOne 1 Sample.oneEvent
     = (Js.Return (Some Sample.meeting), Sample.oneEvent)
  /\ Sample.create body Sample.oneEvent
     = (Js.Return written, {| rows := [written]; autoIncrement := 2 |}).
Proof. repeat split. Qed.

Lemma create_saves_short_names_witness :
  let body := Sample.withName (Js.ofString "a") in
  (Sample.charCount (Js.ofString "a") < 5)%nat
  /\ ClassValidator.validateValue Sample.isISO8601 Sample.selectors
       (Length 5 255) (Dto.name body) = false
  /\ Sample.create body Sample.oneEvent
     = (Js.Return
          {| id := Some (Js.VNumber 2);
             name := Sample.text "a";
             description := Sample.text "Weekly planning";
             when := Some 1643760000000;
             address := Sample.text "22 Main Avenue" |},
        {| rows := [Sample.meeting;
                    {| id := Some (Js.VNumber 2);
                       name := Sample.text "a";
                       description := Sample.text "Weekly planning";
                       when := Some 1643760000000;
                       address := Sample.text "22 Main Avenue" |}];
           autoIncrement := 3 |}).
Proof.
  intros body.
  assert (Hlen : (Sample.charCount (Js.ofString "a") < 5)%nat)
    by (vm_compute; lia).
  destruct (create_saves_short_names Sample.isISO8601 Sample.selectors
              Sample.Date_parse Sample.convert Sample.otherKey body
              Sample.oneEvent (Js.ofString "a") eq_refl Hlen eq_refl)
    as [Hrule [Hsave _]].
  split; [exact Hlen|]. split; [exact Hrule|].
  unfold Sample.create. rewrite Hsave. reflexivity.
Defined.

Lemma identifier_is_immutable_witness :
  let rename := {| Dto.id := None;
                   Dto.name := Sample.text "Renamed";
                   Dto.description := None;
                   Dto.when := None;
                   Dto.address := Sample.text "10 Downing St" |} in
  let requests := [EventsController.PATCH 1 rename;
                   EventsController.POST
                     (Sample.bodyWith (Some (Js.VNumber 1))
                        (Sample.text "12 Long Street"));
                   EventsController.PATCH 1
                     (Sample.bodyWith (Some (Js.VNumber 5))
                        (Sample.text "10 Downing St"))] in
  (exists added,
      map id (rows (Sample.serveAll requests Sample.oneEvent))
      = (map id (rows Sample.oneEvent) ++ added)%list)
  /\ (exists e' st',
        Sample.update 1 rename Sample.oneEvent = (Js.Return e', st')
        /\ EventsController.findOne 1 st' = (Js.Return (Some e'), st')
        /\ id e' = Some (Js.VNumber 1)
        /\ name e' = Sample.text "Renamed"
        /\ description e' = Sample.text "Weekly planning"
        /\ address e' = Sample.text "10 Downing St"
        /\ when e' = Some 1643760000000).
Proof.
  intros rename requests.
  pose proof (identifier_is_immutable Sample.isISO8601 Sample.selectors
                Sample.Date_parse Sample.convert Sample.otherKey
                Sample.scan) as [Hseq [_ Hupd]].
  split.
  - exact (Hseq requests Sample.oneEvent eq_refl).
  - refine (Hupd 1 rename Sample.oneEvent Sample.meeting
              eq_refl eq_refl eq_refl _ eq_refl).
    discriminate.
Defined.

Lemma remove_then_findOne_witness :
  EventsController.findOne 1 Sample.oneEvent
    = (Js.Return (Some Sample.meeting), Sample.oneEvent)
  /\ exists st',
       EventsController.remove 1 Sample.oneEvent = (Js.Return tt, st')
       /\ Js.statusCode EventsController.remove_HttpCode
            (fst (EventsController.remove 1 Sample.oneEvent)) = 204
       /\ EventsController.findOne 1 st' = (Js.Return None, st').
Proof.
  assert (Hfind : EventsController.findOne 1 Sample.oneEvent
                  = (Js.Return (Some Sample.meeting), Sample.oneEvent))
    by reflexivity.
  exact (conj Hfind
    (remove_then_findOne 1 Sample.oneEvent Sample.meeting Hfind)).
Defined.

(** The address of the README's body, five characters: [create] lets it
    through and [update] refuses it. *)
Lemma address_bounds_depend_on_operation_witness :
  let short := Sample.bodyWith None (Sample.text "22") in
  let fits := Sample.bodyWith None (Sample.text "10 Downing St") in
  (forall msgs,
     fst (Sample.create Sample.readmeBody Sample.oneEvent)
     <> Js.Throw (Js.BadRequestException msgs))
  /\ (snd (Sample.update 1 Sample.readmeBody Sample.oneEvent)
      = Sample.oneEvent
      /\ Js.statusCode EventsController.update_HttpCode
           (fst (Sample.update 1 Sample.readmeBody Sample.oneEvent)) = 400)
  /\ (snd (Sample.create short Sample.oneEvent) = Sample.oneEvent
      /\ Js.statusCode EventsController.create_HttpCode
           (fst (Sample.create short Sample.oneEvent)) = 400)
  /\ (forall msgs,
        fst (Sample.update 1 fits Sample.oneEvent)
        <> Js.Throw (Js.BadRequestException msgs)).
Proof.
  intros short fits.
  split; [|split; [|split]].
  - refine (proj1 (address_bounds_depend_on_operation Sample.isISO8601
                     Sample.selectors Sample.Date_parse Sample.convert
                     Sample.otherKey Sample.readmeBody Sample.oneEvent) _).
    exists (Js.ofString "22 av"). split; [reflexivity|].
    vm_compute. lia.
  - refine (proj2 (proj2 (proj2 (address_bounds_depend_on_operation
                     Sample.isISO8601 Sample.selectors Sample.Date_parse
                     Sample.convert Sample.otherKey Sample.readmeBody
                     Sample.oneEvent))) _ 1).
    intros [a [E H]]. injection E as <-. vm_compute in H. lia.
  - refine (proj1 (proj2 (address_bounds_depend_on_operation
                     Sample.isISO8601 Sample.selectors Sample.Date_parse
                     Sample.convert Sample.otherKey short
                     Sample.oneEvent)) _).
    intros [a [E H]]. injection E as <-. vm_compute in H. lia.
  - refine (proj1 (proj2 (proj2 (address_bounds_depend_on_operation
                     Sample.isISO8601 Sample.selectors Sample.Date_parse
                     Sample.convert Sample.otherKey fits
                     Sample.oneEvent))) _ 1).
    exists (Js.ofString "10 Downing St"). split; [reflexivity|].
    vm_compute. lia.
Defined.

Lemma create_accepts_readme_body_witness :
  Sample.create Sample.readmeBody Sample.oneEvent
    = (Js.Return
         {| id := Some (Js.VNumber 2);
            name := Sample.text "a";
            description := Sample.text "hi";
            when := Some 1643760000000;
            address := Sample.text "22 av" |},
       {| rows := [Sample.meeting;
                   {| id := Some (Js.VNumber 2);
                      name := Sample.text "a";
                      description := Sample.text "hi";
                      when := Some 1643760000000;
                      address := Sample.text "22 av" |}];
          autoIncrement := 3 |})
  /\ Js.statusCode EventsController.create_HttpCode
       (fst (Sample.create Sample.readmeBody Sample.oneEvent)) = 201.
Proof.
  exact (proj2 (proj2 (create_accepts_readme_body Sample.isISO8601
                         Sample.selectors Sample.Date_parse Sample.convert
                         Sample.otherKey Sample.oneEvent))
           _ eq_refl).
Defined.

Lemma update_missing_record_inserts_witness :
  let body := Sample.bodyWith None (Sample.text "10 Downing St") in
  wellFormed Sample.oneEvent
  /\ EventsController.findOne 7 Sample.oneEvent
     = (Js.Return None, Sample.oneEvent)
  /\ Sample.updatePipe (Dto.toObject body) = []
  /\ Js.truthy (Dto.when body) = true
  /\ Sample.update 7 body Sample.oneEvent
     = (Js.Return
          {| id := Some (Js.VNumber 2);
             name := Sample.text "Retrospective";
             description := Sample.text "Monthly review";
             when := Some 1682899200000;
             address := Sample.text "10 Downing St" |},
        {| rows := [Sample.meeting;
                    {| id := Some (Js.VNumber 2);
                       name := Sample.text "Retrospective";
                       description := Sample.text "Monthly review";
                       when := Some 1682899200000;
                       address := Sample.text "10 Downing St" |}];
           autoIncrement := 3 |}).
Proof.
  intros body.
  pose proof oneEvent_wellFormed as Hwf.
  assert (Hfind : EventsController.findOne 7 Sample.oneEvent
                  = (Js.Return None, Sample.oneEvent)) by reflexivity.
  assert (Hok : Sample.updatePipe (Dto.toObject body) = [])
    by reflexivity.
  assert (T : Js.truthy (Dto.when body) = true) by reflexivity.
  exact (conj Hwf (conj Hfind (conj Hok (conj T
    (proj1 (update_missing_record_inserts Sample.isISO8601
              Sample.selectors Sample.Date_parse Sample.convert
              Sample.otherKey 7 body Sample.oneEvent
              Hwf Hfind Hok T (or_introl eq_refl) eq_refl)))))).
Defined.

(** C9 as stated fails: the body below passes update-group validation, no
    record has id 7, and [update] throws the [TypeError] of reading
    [event.when] off [null]; the answer is 500 and nothing is saved. *)
Lemma update_missing_record_counterexample :
  let body := {| Dto.id := None;
                 Dto.name := Sample.text "Retrospective";
                 Dto.description := Sample.text "Monthly review";
                 Dto.when := None;
                 Dto.address := Sample.text "10 Downing St" |} in
  EventsController.findOne 7 Sample.oneEvent
    = (Js.Return None, Sample.oneEvent)
  /\ Sample.updatePipe (Dto.toObject body) = []
  /\ Sample.update 7 body Sample.oneEvent
     = (Js.Throw (Js.TypeError
          "Cannot read properties of null (reading 'when')"),
        Sample.oneEvent)
  /\ ~ (exists e st',
          Sample.update 7 body Sample.oneEvent = (Js.Return e, st')).
Proof.
  intros body.
  assert (H : Sample.update 7 body Sample.oneEvent
              = (Js.Throw (Js.TypeError
                   "Cannot read properties of null (reading 'when')"),
                 Sample.oneEvent)) by reflexivity.
  repeat split; try reflexivity.
  intros [e [st' He]]. rewrite H in He. discriminate.
Qed.

(** A name of 256 characters: the pipe lets the body through, and what
    answers is the engine of the examples, which has no room for it. *)
Lemma create_saves_long_names_witness :
  let n := Sample.replicate 256 97%N in
  let body := Sample.withName n in
  (255 < Sample.charCount n)%nat
  /\ ClassValidator.validateValue Sample.isISO8601 Sample.selectors
       (Length 5 255) (Dto.name body) = false
  /\ (forall msgs,
        fst (Sample.create body Sample.oneEvent)
        <> Js.Throw (Js.BadRequestException msgs))
  /\ Sample.create body Sample.oneEvent
     = (Js.Throw Js.QueryFailedError, Sample.oneEvent).
Proof.
  intros n body.
  assert (Hlen : (255 < Sample.charCount n)%nat) by (vm_compute; lia).
  destruct (create_saves_long_names Sample.isISO8601 Sample.selectors
              Sample.Date_parse Sample.convert Sample.otherKey body
              Sample.oneEvent n eq_refl Hlen eq_refl)
    as [Hrule [Hsave Hnot]].
  split; [exact Hlen|]. split; [exact Hrule|]. split; [exact Hnot|].
  unfold Sample.create. rewrite Hsave. reflexivity.
Defined.

Lemma throwing_handlers_write_nothing_witness :
  let short := Sample.bodyWith None (Sample.text "22") in
  let long := Sample.withName (Sample.replicate 256 97%N) in
  let undated := {| Dto.id := None;
                    Dto.name := None;
                    Dto.description := None;
                    Dto.when := None;
                    Dto.address := Sample.text "10 Downing St" |} in
  (fst (Sample.create short Sample.oneEvent)
     = Js.Throw (Js.BadRequestException
         ["address must be longer than or equal to 5 characters"])
   /\ snd (Sample.create short Sample.oneEvent) = Sample.oneEvent)
  /\ (fst (Sample.create long Sample.oneEvent) = Js.Throw Js.QueryFailedError
      /\ snd (Sample.create long Sample.oneEvent) = Sample.oneEvent)
  /\ (fst (Sample.update 7 undated Sample.oneEvent)
        = Js.Throw (Js.TypeError
            "Cannot read properties of null (reading 'when')")
      /\ snd (Sample.update 7 undated Sample.oneEvent) = Sample.oneEvent)
  /\ (fst (EventsController.remove 7 Sample.oneEvent)
        = Js.Throw Js.MustBeEntityError
      /\ snd (EventsController.remove 7 Sample.oneEvent) = Sample.oneEvent).
Proof.
  intros short long undated.
  pose proof (throwing_handlers_write_nothing Sample.isISO8601
                Sample.selectors Sample.Date_parse Sample.convert
                Sample.otherKey) as [Hc [Hu Hr]].
  split; [|split; [|split]].
  - assert (H : fst (Sample.create short Sample.oneEvent)
                = Js.Throw (Js.BadRequestException
                    ["address must be longer than or equal to 5 characters"]))
      by reflexivity.
    exact (conj H (Hc short Sample.oneEvent _ H)).
  - assert (H : fst (Sample.create long Sample.oneEvent)
                = Js.Throw Js.QueryFailedError) by reflexivity.
    exact (conj H (Hc long Sample.oneEvent _ H)).
  - assert (H : fst (Sample.update 7 undated Sample.oneEvent)
                = Js.Throw (Js.TypeError
                    "Cannot read properties of null (reading 'when')"))
      by reflexivity.
    exact (conj H (Hu 7 undated Sample.oneEvent _ H)).
  - assert (H : fst (EventsController.remove 7 Sample.oneEvent)
                = Js.Throw Js.MustBeEntityError) by reflexivity.
    exact (conj H (Hr 7 Sample.oneEvent _ H)).
Defined.

Lemma remove_without_record_witness :
  EventsController.findOne 7 Sample.oneEvent
    = (Js.Return None, Sample.oneEvent)
  /\ EventsController.remove 7 Sample.oneEvent
     = (Js.Throw Js.MustBeEntityError, Sample.oneEvent)
  /\ Js.statusCode EventsController.remove_HttpCode
       (fst (EventsController.remove 7 Sample.oneEvent)) = 500
  /\ EventsController.findOne 1 Sample.oneEvent
     = (Js.Return (Some Sample.meeting), Sample.oneEvent)
  /\ fst (EventsController.remove 1 Sample.oneEvent) = Js.Return tt
  /\ EventsController.remove 1
       (snd (EventsController.remove 1 Sample.oneEvent))
     = (Js.Throw Js.MustBeEntityError,
        snd (EventsController.remove 1 Sample.oneEvent)).
Proof.
  assert (H7 : EventsController.findOne 7 Sample.oneEvent
               = (Js.Return None, Sample.oneEvent)) by reflexivity.
  assert (H1 : EventsController.findOne 1 Sample.oneEvent
               = (Js.Return (Some Sample.meeting), Sample.oneEvent))
    by reflexivity.
  pose proof (proj1 remove_without_record 7 Sample.oneEvent H7) as R7.
  pose proof (proj2 remove_without_record 1 Sample.oneEvent
                Sample.meeting H1) as [R1 R1'].
  split; [exact H7|]. split; [exact R7|].
  split; [rewrite R7; reflexivity|].
  split; [exact H1|]. split; [exact R1|exact R1'].
Defined.

(** A POST whose body names record 1, and a PATCH of route 1 whose body
    names record 5: neither touches record 2. *)
Lemma other_records_are_untouched_witness :
  let post := EventsController.POST
                (Sample.bodyWith (Some (Js.VNumber 1))
                   (Sample.text "12 Long Street")) in
  let patch := EventsController.PATCH 1
                 (Sample.bodyWith (Some (Js.VNumber 5))
                    (Sample.text "10 Downing St")) in
  EventsController.findOne 2 Sample.twoEvents
    = (Js.Return (Some Sample.lunch), Sample.twoEvents)
  /\ Sample.serve post Sample.twoEvents <> Sample.twoEvents
  /\ fst (EventsController.findOne 2 (Sample.serve post Sample.twoEvents))
     = Js.Return (Some Sample.lunch)
  /\ Sample.serve patch Sample.twoEvents <> Sample.twoEvents
  /\ fst (EventsController.findOne 2 (Sample.serve patch Sample.twoEvents))
     = Js.Return (Some Sample.lunch).
Proof.
  intros post patch.
  assert (H2 : EventsController.findOne 2 Sample.twoEvents
               = (Js.Return (Some Sample.lunch), Sample.twoEvents))
    by reflexivity.
  assert (Tpost : EventsController.target Sample.otherKey post <> Some 2)
    by discriminate.
  assert (Tpatch : EventsController.target Sample.otherKey patch <> Some 2)
    by discriminate.
  split; [exact H2|].
  split; [discriminate|].
  split.
  - exact (other_records_are_untouched Sample.isISO8601 Sample.selectors
             Sample.Date_parse Sample.convert Sample.otherKey Sample.scan
             post Sample.twoEvents 2 Sample.lunch Tpost H2).
  - split; [discriminate|].
    exact (other_records_are_untouched Sample.isISO8601 Sample.selectors
             Sample.Date_parse Sample.convert Sample.otherKey Sample.scan
             patch Sample.twoEvents 2 Sample.lunch Tpatch H2).
Defined.

Lemma update_existing_is_idempotent_witness :
  EventsController.findOne 1 Sample.twoEvents
    = (Js.Return (Some Sample.meeting), Sample.twoEvents)
  /\ snd (Sample.update 1 Sample.moveBody Sample.twoEvents)
     <> Sample.twoEvents
  /\ Sample.update 1 Sample.moveBody
       (snd (Sample.update 1 Sample.moveBody Sample.twoEvents))
     = Sample.update 1 Sample.moveBody Sample.twoEvents.
Proof.
  assert (H1 : EventsController.findOne 1 Sample.twoEvents
               = (Js.Return (Some Sample.meeting), Sample.twoEvents))
    by reflexivity.
  assert (Hi : 1 <> 0) by discriminate.
  split; [exact H1|].
  split; [discriminate|].
  exact (update_existing_is_idempotent Sample.isISO8601 Sample.selectors
           Sample.Date_parse Sample.convert Sample.otherKey 1
           Sample.moveBody Sample.twoEvents Sample.meeting
           H1 eq_refl Hi eq_refl).
Defined.

Lemma store_invariants_witness :
  let requests := [EventsController.POST Sample.goodBody;
                   EventsController.POST
                     (Sample.bodyWith (Some (Js.VNumber 1))
                        (Sample.text "12 Long Street"));
                   EventsController.PATCH 2
                     (Sample.bodyWith (Some (Js.VNumber 9))
                        (Sample.text "10 Downing St"));
                   EventsController.DELETE 2;
                   EventsController.POST Sample.goodBody] in
  wellFormed Sample.twoEvents
  /\ NoDup (map id (rows Sample.twoEvents))
  /\ map id (rows (Sample.serveAll requests Sample.twoEvents))
     = [Some (Js.VNumber 1); Some (Js.VNumber 3); Some (Js.VNumber 9);
        Some (Js.VNumber 10)]
  /\ wellFormed (Sample.serveAll requests Sample.twoEvents)
  /\ NoDup (map id (rows (Sample.serveAll requests Sample.twoEvents))).
Proof.
  intros requests.
  pose proof twoEvents_wellFormed as Hwf.
  pose proof twoEvents_NoDup as Hnd.
  destruct (store_invariants Sample.isISO8601 Sample.selectors
              Sample.Date_parse Sample.convert Sample.otherKey Sample.scan
              requests Sample.twoEvents Hwf Hnd) as [Hwf' [Hnd' _]].
  split; [exact Hwf|]. split; [exact Hnd|].
  split; [reflexivity|].
  split; [exact Hwf'|exact Hnd'].
Defined.

(** The body that [create] saves on its route, group [create], is refused
    once the groups are off: its address has 14 characters, and the rule
    tagged [update] allows 10 to 20 of them, but its name is too short. *)
Lemma CreateEventDto_without_groups_witness :
  ClassValidator.validate Sample.isISO8601 Sample.selectors
    (Nest.pipeOptions []) Dto.CreateEventDto_metadata
    (Dto.toObject Sample.goodBody) = []
  /\ ClassValidator.validate Sample.isISO8601 Sample.selectors
       (Nest.pipeOptions []) Dto.CreateEventDto_metadata
       (Dto.toObject Sample.readmeBody) <> [].
Proof.
  pose proof (CreateEventDto_without_groups Sample.isISO8601
                Sample.selectors Sample.goodBody) as Hgood.
  pose proof (CreateEventDto_without_groups Sample.isISO8601
                Sample.selectors Sample.readmeBody) as Hreadme.
  split.
  - apply (proj2 Hgood). repeat split.
  - intros H. destruct (proj1 Hreadme H) as [Hname _]. discriminate Hname.
Defined.

Lemma UpdateEventDto_without_groups_witness :
  ClassValidator.validate Sample.isISO8601 Sample.selectors
    (Nest.pipeOptions []) Dto.UpdateEventDto_metadata
    (Dto.toObject (Sample.nameOnly (Js.ofString "Board meeting"))) = []
  /\ ClassValidator.validate Sample.isISO8601 Sample.selectors
       (Nest.pipeOptions []) Dto.UpdateEventDto_metadata
       (Dto.toObject (Sample.nameOnly (Js.ofString "a"))) <> [].
Proof.
  pose proof (UpdateEventDto_without_groups Sample.isISO8601
                Sample.selectors
                (Sample.nameOnly (Js.ofString "Board meeting"))) as Hok.
  pose proof (UpdateEventDto_without_groups Sample.isISO8601
                Sample.selectors
                (Sample.nameOnly (Js.ofString "a"))) as Hbad.
  split.
  - apply (proj2 Hok).
    split; [right; right; reflexivity|].
    split; [left; reflexivity|].
    split; left; reflexivity.
  - intros H. destruct (proj1 Hbad H) as [[Hn|[Hn|Hn]] _];
      discriminate Hn.
Defined.

(** Seven characters on [update] are too short; six emoji, twelve code
    units and six characters, are reported with both bounds. *)
Lemma address_messages_witness :
  let seven := Sample.bodyWith None (Sample.text "7 Acre.") in
  let emoji := Sample.bodyWith None (Some (Js.VString (Sample.grins 6))) in
  Sample.update 1 seven Sample.oneEvent
    = (Js.Throw (Js.BadRequestException
         ["address must be longer than or equal to 10 characters"]),
       Sample.oneEvent)
  /\ Sample.update 1 emoji Sample.oneEvent
     = (Js.Throw (Js.BadRequestException
          ["address must be longer than or equal to 10 and shorter than or equal to 20 characters"]),
        Sample.oneEvent)
  /\ Sample.create (Sample.bodyWith None None) Sample.oneEvent
     = (Js.Throw (Js.BadRequestException
          ["address must be longer than or equal to 5 characters"]),
        Sample.oneEvent).
Proof.
  intros seven emoji.
  split; [|split].
  - refine (proj2 (proj2 (address_messages Sample.isISO8601
                     Sample.selectors Sample.Date_parse Sample.convert
                     Sample.otherKey seven Sample.oneEvent))
              (Js.ofString "7 Acre.") 1 eq_refl _).
    vm_compute. lia.
  - refine (proj2 (proj2 (address_messages Sample.isISO8601
                     Sample.selectors Sample.Date_parse Sample.convert
                     Sample.otherKey emoji Sample.oneEvent))
              (Sample.grins 6) 1 eq_refl _).
    vm_compute. lia.
  - exact (proj1 (proj1 (address_messages Sample.isISO8601
                     Sample.selectors Sample.Date_parse Sample.convert
                     Sample.otherKey (Sample.bodyWith None None)
                     Sample.oneEvent) eq_refl 1)).
Defined.

